(** * Binary STL bounding-box extraction: [analyze_stl.py] and [check_single_stl.py]

    A shallow embedding of the two STL scripts of the repository and the
    properties of the bounding-box extractor they implement.

    - Python [bytes] are [list byte]; a Python [int] is a [Z].
    - A Python [float] is an IEEE-754 binary64 value, represented by the
      Standard Library's [spec_float]; comparison and subtraction are the
      library's [SFltb], [SFleb], [SFeqb] and [SFsub 53 1024].
    - The scripts run in a state-and-exception monad over a [world] holding
      the file system, the table of file objects and the lines printed.
    - Text formatting ([f"{x:.3f}"]) is not modelled: a printed line is
      recorded with the values that are formatted into it. *)

From Stdlib Require Import ZArith Lia Bool List String Ascii.
From Stdlib Require Import Strings.Byte.
From Stdlib Require Import Floats.SpecFloat.
From Stdlib Require Import Structures.OrdersEx.
From stdpp Require Import base option list strings gmap sorting.

(* ===================================================================== *)
(** ** Floating-point values *)
(* ===================================================================== *)

Module Float.

Local Open Scope Z_scope.

(** A Python float. *)
Definition float := spec_float.

Definition prec64 : Z := 53.
Definition emax64 : Z := 1024.

(** [float("inf")] and [float("-inf")]. *)
Definition inf : float := S754_infinity false.
Definition neg_inf : float := S754_infinity true.

Definition is_nan (x : float) : bool :=
  match x with S754_nan => true | _ => false end.

(** [a < b], [a <= b], [a == b], [a > b] on floats. *)
Definition flt (a b : float) : bool := SFltb a b.
Definition fle (a b : float) : bool := SFleb a b.
Definition feq (a b : float) : bool := SFeqb a b.
Definition fgt (a b : float) : bool := SFltb b a.

(** [a - b] on floats (binary64, round to nearest even). *)
Definition sub (a b : float) : float := SFsub prec64 emax64 a b.

(** The builtin [min(a, b)]: the first argument is kept unless the second
    is strictly smaller. *)
Definition py_min (a b : float) : float := if flt b a then b else a.

(** The builtin [max(a, b)]: the first argument is kept unless the second
    is strictly greater. *)
Definition py_max (a b : float) : float := if fgt b a then b else a.

(** The value of a binary32 bit pattern [w] (sign bit 31, exponent bits
    30..23, fraction bits 22..0), as a binary32 number. *)
Definition of_bits32 (w : Z) : float :=
  let s := Z.testbit w 31 in
  let e := Z.land (Z.shiftr w 23) 255 in
  let m := Z.land w (Z.ones 23) in
  if e =? 255 then
    if m =? 0 then S754_infinity s else S754_nan
  else if e =? 0 then
    match m with
    | Zpos p => S754_finite s p (-149)
    | _ => S754_zero s
    end
  else
    match Z.lor m (Z.shiftl 1 23) with
    | Zpos p => S754_finite s p (e - 150)
    | _ => S754_nan
    end.

(** Conversion of a binary32 number to a Python float: the same value,
    with the mantissa normalised to binary64 (the conversion is exact). *)
Definition widen (x : float) : float :=
  match x with
  | S754_finite s m e => binary_round prec64 emax64 s m e
  | _ => x
  end.

End Float.

Export Float.

(* ===================================================================== *)
(** ** Exceptions and the monad of the scripts *)
(* ===================================================================== *)

(** The exceptions the scripts can raise. *)
Inductive exn : Type :=
| OSError       (* open() or os.listdir() on a missing path *)
| StructError   (* struct.unpack on a buffer of the wrong size *)
| IndexError    (* sequence index out of range *)
| ValueError.   (* I/O operation on a closed file *)

Inductive result (A : Type) : Type :=
| Ok (a : A)
| Raise (e : exn).
Arguments Ok {A} a.
Arguments Raise {A} e.

(** A file object opened in mode ["rb"]. *)
Record file : Type := mkFile {
  name : string;
  content : list byte;
  pos : nat;
  closed : bool
}.

(** A line written by [print], with the values formatted into it. *)
Inductive line : Type :=
| NumTriangles (n : Z)
    (* "Number of triangles: {n}" *)
| BoundingBox
    (* "Bounding box:" *)
| AxisLine (axis : string) (lo hi size : float)
    (* "  {axis}: {lo:.3f} to {hi:.3f} (size: {size:.3f} mm)" *)
| FileName (base : string)
    (* "{base}:" *)
| Summary (n : Z) (dx dy dz : float).
    (* "  Triangles: {n}, Size: {dx:.2f} x {dy:.2f} x {dz:.2f} mm" *)

Record world : Type := mkWorld {
  files : gmap string (list byte);     (* regular files, by path *)
  dirs : gmap string (list string);    (* directories: os.listdir order *)
  handles : list file;                 (* file objects created so far *)
  stdout : list line                   (* lines printed so far *)
}.

Definition M (A : Type) : Type := world -> result A * world.

Definition ret {A} (a : A) : M A := fun w => (Ok a, w).

Definition raise {A} (e : exn) : M A := fun w => (Raise e, w).

Definition bind {A B} (m : M A) (k : A -> M B) : M B :=
  fun w =>
    match m w with
    | (Ok a, w') => k a w'
    | (Raise e, w') => (Raise e, w')
    end.

Notation "'do' x <- m ; k" := (bind m (fun x => k))
  (at level 10, x name, m at level 100, k at level 200).
Notation "'run' m ; k" := (bind m (fun _ => k))
  (at level 10, m at level 100, k at level 200).

(** Lifting of a pure computation that may raise. *)
Definition lift {A} (r : result A) : M A := fun w => (r, w).

(** [for x in xs: s = body(x, s)], with the loop-carried variables [s]. *)
Fixpoint for_in {I S} (xs : list I) (body : I -> S -> M S) (s : S) : M S :=
  match xs with
  | [] => ret s
  | x :: xs' => do s' <- body x s; for_in xs' body s'
  end.

(** [range(n)]. *)
Definition range (n : Z) : list nat := seq 0 (Z.to_nat n).

(* ===================================================================== *)
(** ** File objects *)
(* ===================================================================== *)

Definition set_pos (p : nat) (f : file) : file :=
  mkFile (name f) (content f) p (closed f).

Definition set_closed (f : file) : file :=
  mkFile (name f) (content f) (pos f) true.

Definition set_handles (hs : list file) (w : world) : world :=
  mkWorld (files w) (dirs w) hs (stdout w).

(** [open(path, "rb")]: a new file object at position 0.  A path that
    names no file raises an OS error. *)
Definition open_rb (path : string) : M nat :=
  fun w =>
    match files w !! path with
    | None => (Raise OSError, w)
    | Some bs =>
        (Ok (length (handles w)),
         set_handles (handles w ++ [mkFile path bs 0 false]) w)
    end.

(** [f.read(k)]: up to [k] bytes from the current position, which advances
    by the number of bytes returned.  A short read is not an error. *)
Definition read (fd : nat) (k : nat) : M (list byte) :=
  fun w =>
    match handles w !! fd with
    | None => (Raise ValueError, w)
    | Some f =>
        if closed f then (Raise ValueError, w)
        else
          let chunk := take k (drop (pos f) (content f)) in
          (Ok chunk,
           set_handles (<[fd := set_pos (pos f + length chunk) f]> (handles w)) w)
    end.

(** [f.close()]. *)
Definition close (fd : nat) : M unit :=
  fun w =>
    match handles w !! fd with
    | None => (Ok tt, w)
    | Some f => (Ok tt, set_handles (<[fd := set_closed f]> (handles w)) w)
    end.

(** [with open(path, "rb") as f: body]: the file object is closed when the
    block is left, normally or by an exception, and the exception goes on. *)
Definition with_open {A} (path : string) (body : nat -> M A) : M A :=
  fun w =>
    match open_rb path w with
    | (Raise e, w1) => (Raise e, w1)
    | (Ok fd, w1) =>
        match body fd w1 with
        | (r, w2) => (r, snd (close fd w2))
        end
    end.

(** [print(...)]. *)
Definition print (l : line) : M unit :=
  fun w => (Ok tt, mkWorld (files w) (dirs w) (handles w) (stdout w ++ [l])).

(** [os.listdir(path)]. *)
Definition listdir (path : string) : M (list string) :=
  fun w =>
    match dirs w !! path with
    | None => (Raise OSError, w)
    | Some l => (Ok l, w)
    end.

(* ===================================================================== *)
(** ** [struct.unpack] *)
(* ===================================================================== *)

(** The unsigned integer a little-endian byte string stands for. *)
Fixpoint le_to_Z (bs : list byte) : Z :=
  match bs with
  | [] => 0
  | b :: bs' => Z.of_N (Byte.to_N b) + 256 * le_to_Z bs'
  end%Z.

(** [struct.unpack("<I", b)[0]]: the buffer must hold exactly 4 bytes. *)
Definition unpack_I (b : list byte) : result Z :=
  if length b =? 4 then Ok (le_to_Z b) else Raise StructError.

(** One little-endian binary32 field, as a Python float. *)
Definition unpack_f (b : list byte) : float :=
  widen (of_bits32 (le_to_Z b)).

(** [struct.unpack("<fff", b)]: the buffer must hold exactly 12 bytes. *)
Definition unpack_fff (b : list byte) : result (float * float * float) :=
  if length b =? 12 then
    Ok (unpack_f (take 4 b),
        unpack_f (take 4 (drop 4 b)),
        unpack_f (take 4 (drop 8 b)))
  else Raise StructError.

(** [struct.unpack("<3f", b)]: the same format; the tuple is indexed by
    position in [get_info], so it is kept as a sequence. *)
Definition unpack_3f (b : list byte) : result (list float) :=
  match unpack_fff b with
  | Ok (x, y, z) => Ok [x; y; z]
  | Raise e => Raise e
  end.

(** [l[i]] and [l[i] = v] on sequences, for an index [i >= 0]. *)
Definition getitem {A} (l : list A) (i : nat) : M A :=
  match l !! i with
  | Some x => ret x
  | None => raise IndexError
  end.

Definition setitem {A} (l : list A) (i : nat) (v : A) : M (list A) :=
  if i <? length l then ret (<[i := v]> l) else raise IndexError.

(* ===================================================================== *)
(** ** Strings and paths *)
(* ===================================================================== *)

(** [s.startswith(p)] and [s.endswith(p)]. *)
Definition startswith (s p : string) : bool := String.prefix p s.

Definition endswith (s p : string) : bool :=
  (String.length p <=? String.length s) &&
  String.eqb (String.substring (String.length s - String.length p)
                               (String.length p) s) p.

Fixpoint has_slash (p : string) : bool :=
  match p with
  | EmptyString => false
  | String c r => Ascii.eqb c "/" || has_slash r
  end.

(** [os.path.basename(p)]: what follows the last slash. *)
Fixpoint basename (p : string) : string :=
  match p with
  | EmptyString => EmptyString
  | String c r =>
      if has_slash r then basename r
      else if Ascii.eqb c "/" then r else p
  end.

(** [os.path.join(a, b)]. *)
Definition path_join (a b : string) : string :=
  if startswith b "/" then b
  else if String.eqb a "" || endswith a "/" then String.append a b
  else String.append a (String "/" b).

(** Order of [str]: lexicographic on the characters' codes. *)
Definition str_le (a b : string) : Prop := String.leb a b = true.

#[global] Instance str_le_dec : RelDecision str_le.
Proof. intros a b. unfold str_le. apply _. Defined.

(** [sorted(l)] on a list of strings. *)
Definition sorted (l : list string) : list string := merge_sort str_le l.

(* ===================================================================== *)
(** ** [analyze_stl.py] *)
(* ===================================================================== *)

(** The six loop-carried variables of [analyze_stl.py]. *)
Record extrema : Type := mkExtrema {
  min_x : float; min_y : float; min_z : float;
  max_x : float; max_y : float; max_z : float
}.

Definition extrema0 : extrema :=
  mkExtrema inf inf inf neg_inf neg_inf neg_inf.

(** Lines 19-21: the update for one vertex. *)
Definition update (s : extrema) (v : float * float * float) : extrema :=
  let '(x, y, z) := v in
  mkExtrema (py_min (min_x s) x) (py_min (min_y s) y) (py_min (min_z s) z)
            (py_max (max_x s) x) (py_max (max_y s) y) (py_max (max_z s) z).

(** Lines 17-21: the three vertices of a triangle. *)
Definition read_vertices (f : nat) (s : extrema) : M extrema :=
  for_in (range 3) (fun _ s =>
    do b <- read f 12;
    do v <- lift (unpack_fff b);
    ret (update s v)) s.

(** Lines 16-22: one triangle record. *)
Definition read_triangle (f : nat) (s : extrema) : M extrema :=
  run read f 12;
  do s' <- read_vertices f s;
  run read f 2;
  ret s'.

Definition default_filename : string :=
  "output/toroidal_one_turn_rectangular_wire.stl".

(** Lines 8-27: the block under [with open(filename, "rb") as f]. *)
Definition analyze_block (f : nat) : M unit :=
  do header <- read f 80;
  do b <- read f 4;
  do num_triangles <- lift (unpack_I b);
  run print (NumTriangles num_triangles);
  do s <- for_in (range num_triangles) (fun _ s => read_triangle f s) extrema0;
  run print BoundingBox;
  run print (AxisLine "X" (min_x s) (max_x s) (sub (max_x s) (min_x s)));
  run print (AxisLine "Y" (min_y s) (max_y s) (sub (max_y s) (min_y s)));
  print (AxisLine "Z" (min_z s) (max_z s) (sub (max_z s) (min_z s))).

(** The script, run with [sys.argv = argv]. *)
Definition analyze_stl (argv : list string) : M unit :=
  let filename :=
    match argv with
    | _ :: a :: _ => a
    | _ => default_filename
    end in
  with_open filename analyze_block.

(* ===================================================================== *)
(** ** [check_single_stl.py] *)
(* ===================================================================== *)

(** The two lists [mins] and [maxs] of [get_info]. *)
Definition bounds : Type := (list float * list float)%type.

(** Lines 15-17: the update for one vertex [v], axis by axis. *)
Definition update_lists (v : list float) (mm : bounds) : M bounds :=
  for_in (range 3) (fun i '(mins, maxs) =>
    do a <- getitem mins i;
    do x <- getitem v i;
    do mins' <- setitem mins i (py_min a x);
    do c <- getitem maxs i;
    do x' <- getitem v i;
    do maxs' <- setitem maxs i (py_max c x');
    ret (mins', maxs')) mm.

(** Lines 13-17. *)
Definition read_vertices_lists (f : nat) (mm : bounds) : M bounds :=
  for_in (range 3) (fun _ mm =>
    do b <- read f 12;
    do v <- lift (unpack_3f b);
    update_lists v mm) mm.

(** Lines 12-18. *)
Definition read_triangle_lists (f : nat) (mm : bounds) : M bounds :=
  run read f 12;
  do mm' <- read_vertices_lists f mm;
  run read f 2;
  ret mm'.

(** Lines 7-23: the block under [with open(fname, 'rb') as f]. *)
Definition get_info_block (fname : string) (f : nat) : M unit :=
  run read f 80;
  do b <- read f 4;
  do n <- lift (unpack_I b);
  let mins := replicate 3 inf in
  let maxs := replicate 3 neg_inf in
  do mm <- for_in (range n) (fun _ mm => read_triangle_lists f mm) (mins, maxs);
  let '(mins, maxs) := mm in
  do hx <- getitem maxs 0; do lx <- getitem mins 0;
  let dx := sub hx lx in
  do hy <- getitem maxs 1; do ly <- getitem mins 1;
  let dy := sub hy ly in
  do hz <- getitem maxs 2; do lz <- getitem mins 2;
  let dz := sub hz lz in
  run print (FileName (basename fname));
  print (Summary n dx dy dz).

Definition get_info (fname : string) : M unit :=
  with_open fname (get_info_block fname).

Definition output_dir : string := "output".

(** The script, run with [sys.argv = argv]. *)
Definition check_single_stl (argv : list string) : M unit :=
  match argv with
  | _ :: a :: _ => get_info a
  | _ =>
      do l <- listdir output_dir;
      for_in (sorted l) (fun f _ =>
        if endswith f ".stl" then get_info (path_join output_dir f)
        else ret tt) tt
  end.

(* ===================================================================== *)
(** ** The binary STL layout, as the scripts consume it *)
(* ===================================================================== *)

(** The count field: bytes 80..83. *)
Definition count (bs : list byte) : Z := le_to_Z (take 4 (drop 80 bs)).

Definition ntriangles (bs : list byte) : nat := Z.to_nat (count bs).

(** The three 12-byte vertex fields of each of [n] records, the first record
    starting at offset [p]: a record is 12 bytes of normal, 36 bytes of
    vertices and 2 bytes of attribute. *)
Fixpoint vertex_chunks (bs : list byte) (p n : nat) : list (list byte) :=
  match n with
  | O => []
  | S n' =>
      take 12 (drop (p + 12) bs) :: take 12 (drop (p + 24) bs)
        :: take 12 (drop (p + 36) bs) :: vertex_chunks bs (p + 50) n'
  end.

Definition vertex_of (chunk : list byte) : float * float * float :=
  (unpack_f (take 4 chunk),
   unpack_f (take 4 (drop 4 chunk)),
   unpack_f (take 4 (drop 8 chunk))).

(** The vertex stream of a file. *)
Definition vertices (bs : list byte) : list (float * float * float) :=
  map vertex_of (vertex_chunks bs 84 (ntriangles bs)).

Definition xs (vs : list (float * float * float)) : list float := map (fun v => v.1.1) vs.
Definition ys (vs : list (float * float * float)) : list float := map (fun v => v.1.2) vs.
Definition zs (vs : list (float * float * float)) : list float := map (fun v => v.2) vs.

(** No coordinate of the vertex is NaN. *)
Definition no_nan (v : float * float * float) : Prop :=
  is_nan v.1.1 = false /\ is_nan v.1.2 = false /\ is_nan v.2 = false.

(** The running extrema after a stream of vertices. *)
Definition extrema_after (vs : list (float * float * float)) : extrema :=
  fold_left update vs extrema0.

(** The running minimum and maximum of a stream of coordinates. *)
Definition run_min (cs : list float) : float := fold_left py_min cs inf.
Definition run_max (cs : list float) : float := fold_left py_max cs neg_inf.

(** The file is long enough for every read that [struct.unpack] checks:
    the count field and, for a positive count, the vertices of the last
    record. *)
Definition readable (bs : list byte) : Prop :=
  84 <= length bs /\ (ntriangles bs = 0 \/ 82 + 50 * ntriangles bs <= length bs).

(** The file holds the preamble and all its records in full. *)
Definition well_formed (bs : list byte) : Prop :=
  84 + 50 * ntriangles bs <= length bs.

(** The lines [analyze_stl.py] prints after the count line. *)
Definition bbox_lines (s : extrema) : list line :=
  [ BoundingBox;
    AxisLine "X" (min_x s) (max_x s) (sub (max_x s) (min_x s));
    AxisLine "Y" (min_y s) (max_y s) (sub (max_y s) (min_y s));
    AxisLine "Z" (min_z s) (max_z s) (sub (max_z s) (min_z s)) ].

(** The lines [get_info] prints. *)
Definition summary_lines (fname : string) (n : Z) (s : extrema) : list line :=
  [ FileName (basename fname);
    Summary n (sub (max_x s) (min_x s)) (sub (max_y s) (min_y s))
              (sub (max_z s) (min_z s)) ].

(** A world in which [path] is a regular file holding [bs]. *)
Definition has_file (w : world) (path : string) (bs : list byte) : Prop :=
  files w !! path = Some bs.

(** Every file object of the world is closed. *)
Definition all_closed (w : world) : Prop :=
  Forall (fun f => closed f = true) (handles w).

(** The paths of the file objects created since the table held [k] of them,
    in order of creation. *)
Definition opened_since (k : nat) (w : world) : list string :=
  map name (drop k (handles w)).

(* ===================================================================== *)
(** ** Synthesis of STL files *)
(* ===================================================================== *)

Definition byte_of_Z (z : Z) : byte :=
  match Byte.of_N (Z.to_N (z mod 256)) with
  | Some b => b
  | None => x00
  end.

(** [struct.pack("<I", k)]. *)
Definition pack_I (k : Z) : list byte :=
  [ byte_of_Z k; byte_of_Z (k / 256); byte_of_Z (k / 65536);
    byte_of_Z (k / 16777216) ]%Z.

(** A triangle record: the normal, the nine coordinates of the three
    vertices, each as the 4 bytes of a binary32, and the attribute field. *)
Record facet : Type := mkFacet {
  normal : list byte;
  coords : list (list byte);
  attribute : list byte
}.

Definition facet_ok (t : facet) : Prop :=
  length (normal t) = 12 /\
  length (coords t) = 9 /\ Forall (fun c => length c = 4) (coords t) /\
  length (attribute t) = 2.

Definition facet_bytes (t : facet) : list byte :=
  normal t ++ concat (coords t) ++ attribute t.

Definition synth (header : list byte) (ts : list facet) : list byte :=
  header ++ pack_I (Z.of_nat (length ts)) ++ concat (map facet_bytes ts).

(** The three vertices of a record. *)
Definition facet_vertices (t : facet) : list (float * float * float) :=
  map vertex_of
    [ concat (take 3 (coords t));
      concat (take 3 (drop 3 (coords t)));
      concat (take 3 (drop 6 (coords t))) ].

(** The coordinates of a record on axis [j] (0, 1, 2), one per vertex. *)
Definition facet_axis (j : nat) (t : facet) : list float :=
  omap (fun v => unpack_f <$> (coords t !! (3 * v + j))) [0; 1; 2].

Definition axis_values (j : nat) (ts : list facet) : list float :=
  concat (map (facet_axis j) ts).

(** The coordinates [cs] span the interval from [lo] to [hi]: all lie in
    it and both ends are attained. *)
Definition spans (cs : list float) (lo hi : float) : Prop :=
  Forall (fun c => fle lo c = true /\ fle c hi = true) cs /\
  Exists (fun c => feq c lo = true) cs /\
  Exists (fun c => feq c hi = true) cs.

(** An axis-aligned box. *)
Record box : Type := mkBox {
  lo_x : float; hi_x : float;
  lo_y : float; hi_y : float;
  lo_z : float; hi_z : float
}.

Definition spans_box (ts : list facet) (B : box) : Prop :=
  spans (axis_values 0 ts) (lo_x B) (hi_x B) /\
  spans (axis_values 1 ts) (lo_y B) (hi_y B) /\
  spans (axis_values 2 ts) (lo_z B) (hi_z B).

(** Equality of a reported bounding box with a box, by float [==]. *)
Definition box_eq (s : extrema) (B : box) : Prop :=
  feq (min_x s) (lo_x B) = true /\ feq (max_x s) (hi_x B) = true /\
  feq (min_y s) (lo_y B) = true /\ feq (max_y s) (hi_y B) = true /\
  feq (min_z s) (lo_z B) = true /\ feq (max_z s) (hi_z B) = true.

(** The world while a script runs its [with] block on the file object [fd],
    created from [fo]: the object is at position [p] and [out] has been
    printed. *)
Definition at_pos (fs : gmap string (list byte)) (ds : gmap string (list string))
    (hs : list file) (fd : nat) (fo : file) (p : nat) (out : list line) : world :=
  mkWorld fs ds (<[fd := set_pos p fo]> hs) out.

(** The encoding of the six extrema as the two lists of [get_info]. *)
Definition to_lists (s : extrema) : bounds :=
  ([min_x s; min_y s; min_z s], [max_x s; max_y s; max_z s]).

Definition map_result {A B} (f : A -> B) (r : result A * world) : result B * world :=
  match r with
  | (Ok a, w) => (Ok (f a), w)
  | (Raise e, w) => (Raise e, w)
  end.

(** The world after a [with] block on the file [path], holding [bs], left
    its file object closed at position [p], with [out] printed. *)
Definition closed_at (w : world) (path : string) (bs : list byte) (p : nat)
    (out : list line) : world :=
  mkWorld (files w) (dirs w) (handles w ++ [mkFile path bs p true]) out.

(* ===================================================================== *)
(** ** Sample inputs *)
(* ===================================================================== *)

Definition zeros (n : nat) : list byte := replicate n x00.

(** The binary32 encodings of 1.0, 2.0, -3.0 and a quiet NaN. *)
Definition f32_one : list byte := [x00; x00; x80; x3f].
Definition f32_two : list byte := [x00; x00; x00; x40].
Definition f32_minus_three : list byte := [x00; x00; x40; xc0].
Definition f32_nan : list byte := [x00; x00; xc0; x7f].

(** A triangle with vertices (1, 2, -3), (2, 1, 1), (-3, -3, 2). *)
Definition facet_a : facet :=
  mkFacet (zeros 12)
    [ f32_one; f32_two; f32_minus_three;
      f32_two; f32_one; f32_one;
      f32_minus_three; f32_minus_three; f32_two ]
    (zeros 2).

(** A triangle whose nine coordinates are all NaN. *)
Definition facet_nan : facet := mkFacet (zeros 12) (replicate 9 f32_nan) (zeros 2).

Definition stl_one : list byte := synth (zeros 80) [facet_a].

(** The same triangle under another header, normal and attribute. *)
Definition stl_one_alt : list byte :=
  synth (replicate 80 xff)
        [mkFacet (replicate 12 x01) (coords facet_a) [x07; x09]].
Definition stl_nan : list byte := synth (zeros 80) [facet_nan].
Definition stl_empty : list byte := synth (zeros 80) [].

(** A world with one regular file and nothing printed or opened yet. *)
Definition single_file (path : string) (bs : list byte) : world :=
  mkWorld {[ path := bs ]} ∅ [] [].

(** A world whose directory ["output"] lists [listing] and holds the files
    [fs]. *)
Definition with_output (listing : list string) (fs : gmap string (list byte)) : world :=
  mkWorld fs {[ output_dir := listing ]} [] [].

Definition is_stl (f : string) : bool := endswith f ".stl".

(* ===================================================================== *)
(** ** Further notions used by the properties *)
(* ===================================================================== *)

(** A coordinate that takes part in the comparisons: any float but NaN. *)
Definition ordered (c : float) : bool := negb (is_nan c).

(** [x] is not below zero: [x < 0.0] is false (NaN included). *)
Definition not_negative (x : float) : Prop := flt x (S754_zero false) = false.

(** The world [w] with the directory table replaced. *)
Definition set_dirs (ds : gmap string (list string)) (w : world) : world :=
  mkWorld (files w) ds (handles w) (stdout w).

(** A computation that neither reads nor changes the directory table. *)
Definition dirs_blind {A} (m : M A) : Prop :=
  forall ds w, m (set_dirs ds w) = (fst (m w), set_dirs ds (snd (m w))).

(** The two lines [get_info] prints for the entry [f] of the scanned
    directory, when the file is there. *)
Definition scan_lines (w : world) (f : string) : list line :=
  match files w !! path_join output_dir f with
  | Some bs =>
      summary_lines (path_join output_dir f) (count bs) (extrema_after (vertices bs))
  | None => []
  end.

(** The path holds a NUL character: the builtin [open] refuses such a
    path with a [ValueError] before it looks at the file system, so
    [open_rb] stands for [open] on the other paths only. *)
Fixpoint has_nul (p : string) : bool :=
  match p with
  | EmptyString => false
  | String c r => Ascii.eqb c "000" || has_nul r
  end.

(** [a] and [b] are the same infinity. *)
Definition same_infinity (a b : float) : Prop :=
  (a = inf /\ b = inf) \/ (a = neg_inf /\ b = neg_inf).

(** The entry [f] of the scanned directory is a file on which [get_info]
    succeeds. *)
Definition entry_ok (w : world) (f : string) : Prop :=
  exists bs, has_file w (path_join output_dir f) bs /\ readable bs.

(** The exception [get_info] ends with on an entry that is not
    [entry_ok]: the file cannot be opened, or it is too short. *)
Definition entry_error (w : world) (f : string) : exn :=
  match files w !! path_join output_dir f with
  | Some _ => StructError
  | None => OSError
  end.

(** The entries of a failing scan for which a file object is created: the
    entries before the failing one and, when its file exists, that one. *)
Definition entries_opened (w : world) (pre : list string) (f : string) : list string :=
  pre ++ match files w !! path_join output_dir f with
         | Some _ => [f]
         | None => []
         end.

(* ===================================================================== *)
(** * Properties *)
(* ===================================================================== *)

(** ** The order of floats *)

Section FloatOrder.

Ltac cmp_cases :=
  repeat match goal with
  | H : context [(?a ?= ?b)%Z] |- _ => destruct (Z.compare_spec a b); simpl in *
  | |- context [(?a ?= ?b)%Z] => destruct (Z.compare_spec a b); simpl in *
  | H : context [(?a ?= ?b)%positive] |- _ => destruct (Pos.compare_spec a b); simpl in *
  | |- context [(?a ?= ?b)%positive] => destruct (Pos.compare_spec a b); simpl in *
  end.

Ltac float_cases :=
  unfold fle, flt, feq, fgt, SFleb, SFltb, SFeqb, is_nan, inf, neg_inf in *;
  repeat match goal with
  | x : float |- _ => destruct x as [[]|[]| |[] ? ?]
  end;
  simpl in *;
  repeat match goal with
  | H : context [Pos.compare_cont Eq ?a ?b] |- _ => change (Pos.compare_cont Eq a b) with (Pos.compare a b) in H
  | |- context [Pos.compare_cont Eq ?a ?b] => change (Pos.compare_cont Eq a b) with (Pos.compare a b)
  end;
  try congruence;
  cmp_cases; try congruence; try lia.

Lemma flt_fle (a b : float) : flt a b = true -> fle a b = true.
Proof. intros H. float_cases. Qed.

Lemma fle_refl (a : float) : is_nan a = false -> fle a a = true.
Proof. intros H. float_cases. Qed.

Lemma fle_trans (a b c : float) : fle a b = true -> fle b c = true -> fle a c = true.
Proof. intros H1 H2. float_cases. Qed.

Lemma fle_antisym (a b : float) : fle a b = true -> fle b a = true -> feq a b = true.
Proof. intros H1 H2. float_cases. Qed.

Lemma feq_fle (a b : float) : feq a b = true -> fle a b = true.
Proof. intros H. float_cases. Qed.

Lemma feq_sym (a b : float) : feq a b = true -> feq b a = true.
Proof. intros H. float_cases. Qed.

Lemma not_flt_fle (a b : float) :
  is_nan a = false -> is_nan b = false -> flt a b = false -> fle b a = true.
Proof. intros Ha Hb H. float_cases. Qed.

Lemma fle_not_nan (a b : float) :
  fle a b = true -> is_nan a = false /\ is_nan b = false.
Proof. intros H. split; float_cases. Qed.

Lemma flt_not_nan (a b : float) :
  flt a b = true -> is_nan a = false /\ is_nan b = false.
Proof. intros H. split; float_cases. Qed.

Lemma fle_inf (a : float) : is_nan a = false -> fle a inf = true.
Proof. intros H. float_cases. Qed.

Lemma neg_inf_fle (a : float) : is_nan a = false -> fle neg_inf a = true.
Proof. intros H. float_cases. Qed.

End FloatOrder.

(** ** Decoding: sample values

    1.0, 2.0 and -3.0; the infinities, the zeros, the least subnormal and a
    NaN.  The decoded values are canonical binary64 numbers. *)

Example unpack_f_one : unpack_f f32_one = S754_finite false 4503599627370496 (-52).
Proof. reflexivity. Qed.

Example unpack_f_two : unpack_f f32_two = S754_finite false 4503599627370496 (-51).
Proof. reflexivity. Qed.

Example unpack_f_minus_three :
  unpack_f f32_minus_three = S754_finite true 6755399441055744 (-51).
Proof. reflexivity. Qed.

Example unpack_f_inf : unpack_f [x00; x00; x80; x7f] = inf.
Proof. reflexivity. Qed.

Example unpack_f_neg_inf : unpack_f [x00; x00; x80; xff] = neg_inf.
Proof. reflexivity. Qed.

Example unpack_f_neg_zero : unpack_f [x00; x00; x00; x80] = S754_zero true.
Proof. reflexivity. Qed.

Example unpack_f_least_subnormal :
  unpack_f [x01; x00; x00; x00] = S754_finite false 4503599627370496 (-201).
Proof. reflexivity. Qed.

Example unpack_f_nan : unpack_f f32_nan = S754_nan.
Proof. reflexivity. Qed.

Example unpack_f_valid :
  forallb (fun b => valid_binary prec64 emax64 (unpack_f b))
    [f32_one; f32_two; f32_minus_three; [x01; x00; x00; x00]; [xff; xff; x7f; x7f]] = true.
Proof. reflexivity. Qed.

(** A NaN never replaces a running extremum. *)
Example py_min_nan : py_min inf S754_nan = inf /\ py_max neg_inf S754_nan = neg_inf.
Proof. split; reflexivity. Qed.

(** [min] and [max] keep their first argument on a tie. *)
Example py_min_zeros :
  py_min (S754_zero false) (S754_zero true) = S754_zero false /\
  py_max (S754_zero true) (S754_zero false) = S754_zero true.
Proof. split; reflexivity. Qed.

Example basename_join : basename (path_join output_dir "a.stl") = "a.stl"%string.
Proof. reflexivity. Qed.

Example endswith_stl :
  endswith "a.stl" ".stl" = true /\ endswith "stl" ".stl" = false /\
  endswith "a.stl.txt" ".stl" = false.
Proof. repeat split; reflexivity. Qed.

Example sorted_names :
  sorted ["b.stl"; "a.stl"; "B.stl"; "aa.stl"]%string
  = ["B.stl"; "a.stl"; "aa.stl"; "b.stl"]%string.
Proof. reflexivity. Qed.

(** ** Decoding: canonical values *)

Section Decoding.
Local Open Scope Z_scope.

Lemma digits2_pos_log2 (p : positive) : Zpos (digits2_pos p) = Z.log2 (Zpos p) + 1.
Proof.
  induction p as [p IH|p IH|]; simpl digits2_pos; try reflexivity.
  - rewrite Pos2Z.inj_succ, IH.
    change (Zpos p~1) with (2 * Zpos p + 1). rewrite Z.log2_succ_double by lia. lia.
  - rewrite Pos2Z.inj_succ, IH.
    change (Zpos p~0) with (2 * Zpos p). rewrite Z.log2_double by lia. lia.
Qed.

Lemma digits2_pos_iter (d : positive) : forall p,
  Zpos (digits2_pos (Pos.iter xO p d)) = Zpos (digits2_pos p) + Zpos d.
Proof.
  induction d as [|d IH] using Pos.peano_ind; intros p.
  - simpl. lia.
  - rewrite Pos.iter_succ. simpl digits2_pos. rewrite Pos2Z.inj_succ, IH. lia.
Qed.

(** A number of at most 24 digits with a binary32 exponent is widened to a
    canonical binary64 number. *)
Lemma widen_finite_valid s m e :
  Zpos (digits2_pos m) <= 24 -> -149 <= e <= 104 ->
  valid_binary prec64 emax64 (binary_round prec64 emax64 s m e) = true.
Proof.
  intros Hm He. unfold binary_round, shl_align, fexp, emin, prec64, emax64.
  assert (Hd : 1 <= Zpos (digits2_pos m)) by lia.
  rewrite Z.max_l by lia.
  destruct (Z.pos (digits2_pos m) + e - 53 - e) as [|d|d] eqn:Ed; try lia.
  unfold binary_round_aux, shr_fexp, fexp, emin. cbn [Zdigits2 shr_record_of_loc].
  rewrite digits2_pos_iter.
  replace (Z.max (Z.pos (digits2_pos m) + Z.pos d + (Z.pos (digits2_pos m) + e - 53) - 53)
                 (3 - 1024 - 53) - (Z.pos (digits2_pos m) + e - 53)) with 0 by lia.
  cbn [shr loc_of_shr_record shr_m round_nearest_even Zdigits2 shr_record_of_loc].
  rewrite digits2_pos_iter.
  replace (Z.max (Z.pos (digits2_pos m) + Z.pos d + (Z.pos (digits2_pos m) + e - 53) - 53)
                 (3 - 1024 - 53) - (Z.pos (digits2_pos m) + e - 53)) with 0 by lia.
  cbn [shr shr_m].
  destruct (Z.leb_spec (Z.pos (digits2_pos m) + e - 53) (1024 - 53)); [|lia].
  unfold valid_binary, bounded, canonical_mantissa, fexp, emin.
  rewrite digits2_pos_iter.
  apply andb_true_intro. split; [apply Z.eqb_eq|apply Z.leb_le]; lia.
Qed.

Lemma of_bits32_widen_valid (w : Z) :
  valid_binary prec64 emax64 (widen (of_bits32 w)) = true.
Proof.
  unfold of_bits32.
  change 255 with (Z.ones 8). rewrite !Z.land_ones by lia.
  pose proof (Z.mod_pos_bound (Z.shiftr w 23) (2 ^ 8) eq_refl) as He.
  pose proof (Z.mod_pos_bound w (2 ^ 23) eq_refl) as Hm.
  change (2 ^ 8) with 256 in *. change (Z.ones 8) with 255.
  destruct (Z.eqb_spec (Z.shiftr w 23 mod 256) 255) as [E255|E255].
  { destruct (w mod 2 ^ 23 =? 0); reflexivity. }
  destruct (Z.eqb_spec (Z.shiftr w 23 mod 256) 0) as [E0|E0].
  - destruct (w mod 2 ^ 23) as [|p|p] eqn:Ep; try reflexivity.
    cbn [widen]. apply widen_finite_valid; [|lia].
    rewrite digits2_pos_log2.
    assert (Z.log2 (Z.pos p) < 23) by (apply Z.log2_lt_pow2; lia). lia.
  - destruct (Z.lor (w mod 2 ^ 23) (Z.shiftl 1 23)) as [|p|p] eqn:Ep; try reflexivity.
    cbn [widen]. apply widen_finite_valid; [|lia].
    rewrite digits2_pos_log2, <- Ep, Z.log2_lor by (try apply Z.shiftl_nonneg; lia).
    assert (Z.log2 (w mod 2 ^ 23) <= 23).
    { destruct (Z.eq_dec (w mod 2 ^ 23) 0) as [->|]; [simpl; lia|].
      assert (Z.log2 (w mod 2 ^ 23) < 23) by (apply Z.log2_lt_pow2; lia). lia. }
    change (Z.log2 (Z.shiftl 1 23)) with 23. lia.
Qed.

(** Every binary32 field decodes to a canonical binary64 number. *)
Lemma unpack_f_valid_binary (b : list byte) :
  valid_binary prec64 emax64 (unpack_f b) = true.
Proof. apply of_bits32_widen_valid. Qed.
End Decoding.

(** ** The monad *)

Section Monad.
Context {A B : Type}.

Lemma bind_ok (m : M A) (k : A -> M B) w a w' :
  m w = (Ok a, w') -> bind m k w = k a w'.
Proof. intros H. unfold bind. rewrite H. reflexivity. Qed.

Lemma bind_raise (m : M A) (k : A -> M B) w e w' :
  m w = (Raise e, w') -> bind m k w = (Raise e, w').
Proof. intros H. unfold bind. rewrite H. reflexivity. Qed.
End Monad.

(** ** Reads and loops on an open file object *)

Section Body.
Variables (fs : gmap string (list byte)) (ds : gmap string (list string)).
Variables (hs : list file) (fd : nat) (fo : file).
Hypothesis Hfd : fd < length hs.
Hypothesis Hopen : closed fo = false.

Local Abbreviation st := (at_pos fs ds hs fd fo).
Local Abbreviation len := (length (content fo)).

Lemma read_at k p out :
  read fd k (st p out) =
  (Ok (take k (drop p (content fo))), st (p + Nat.min k (len - p)) out).
Proof.
  unfold read, at_pos, set_handles. simpl.
  rewrite list_lookup_insert_eq by exact Hfd. simpl. rewrite Hopen.
  rewrite list_insert_insert_eq, length_take, length_drop. reflexivity.
Qed.

Lemma print_at l p out : print l (st p out) = (Ok tt, st p (out ++ [l])).
Proof. reflexivity. Qed.

Lemma ok_eq {A} (a b : A) p q out :
  a = b -> p = q -> (Ok a, st p out) = (Ok b, st q out).
Proof. intros -> ->. reflexivity. Qed.

(** A vertex read that finds its 12 bytes. *)
Lemma vertex_ok s p out :
  p + 12 <= len ->
  (do b <- read fd 12; do v <- lift (unpack_fff b); ret (update s v)) (st p out)
  = (Ok (update s (vertex_of (take 12 (drop p (content fo))))), st (p + 12) out).
Proof.
  intros Hp. erewrite bind_ok by apply read_at.
  unfold bind, lift, unpack_fff, ret.
  rewrite length_take, length_drop.
  replace (12 `min` (len - p)) with 12 by lia. reflexivity.
Qed.

(** A vertex read that underruns. *)
Lemma vertex_fail s p out :
  len < p + 12 ->
  exists p',
  (do b <- read fd 12; do v <- lift (unpack_fff b); ret (update s v)) (st p out)
  = (Raise StructError, st p' out).
Proof.
  intros Hp. eexists. erewrite bind_ok by apply read_at.
  unfold bind, lift, unpack_fff, ret.
  rewrite length_take, length_drop.
  destruct (12 `min` (len - p) =? 12) eqn:E; [apply Nat.eqb_eq in E; lia|].
  reflexivity.
Qed.

Lemma read_vertices_ok s p out :
  p + 36 <= len ->
  read_vertices fd s (st p out)
  = (Ok (fold_left update
           (map vertex_of [take 12 (drop p (content fo));
                           take 12 (drop (p + 12) (content fo));
                           take 12 (drop (p + 24) (content fo))]) s),
     st (p + 36) out).
Proof.
  intros Hp. unfold read_vertices. change (range 3) with [0; 1; 2].
  cbn [for_in].
  erewrite bind_ok by (apply vertex_ok; lia). cbn [for_in].
  erewrite bind_ok by (apply vertex_ok; lia). cbn [for_in].
  erewrite bind_ok by (apply vertex_ok; lia). cbn [for_in].
  unfold ret. replace (p + 12 + 12 + 12) with (p + 36) by lia.
  replace (p + 12 + 12) with (p + 24) by lia. reflexivity.
Qed.

Lemma read_vertices_fail s p out :
  len < p + 36 ->
  exists p', read_vertices fd s (st p out) = (Raise StructError, st p' out).
Proof.
  intros Hp. unfold read_vertices. change (range 3) with [0; 1; 2].
  cbn [for_in].
  destruct (decide (p + 12 <= len)) as [H1|H1].
  2:{ destruct (vertex_fail s p out) as [p' E]; [lia|].
      exists p'. erewrite bind_raise by exact E. reflexivity. }
  erewrite bind_ok by (apply vertex_ok; lia). cbn [for_in].
  destruct (decide (p + 12 + 12 <= len)) as [H2|H2].
  2:{ edestruct (vertex_fail) as [p' E]; [|exists p'; erewrite bind_raise by exact E; reflexivity].
      lia. }
  erewrite bind_ok by (apply vertex_ok; lia). cbn [for_in].
  edestruct (vertex_fail) as [p' E]; [|exists p'; erewrite bind_raise by exact E; reflexivity].
  lia.
Qed.

Lemma read_triangle_ok s p out :
  p + 48 <= len ->
  read_triangle fd s (st p out)
  = (Ok (fold_left update (map vertex_of (vertex_chunks (content fo) p 1)) s),
     st (p + Nat.min 50 (len - p)) out).
Proof.
  intros Hp. unfold read_triangle.
  erewrite bind_ok by apply read_at.
  replace (p + 12 `min` (len - p)) with (p + 12) by lia.
  erewrite bind_ok by (apply read_vertices_ok; lia).
  erewrite bind_ok by apply read_at.
  unfold ret. cbn [vertex_chunks].
  replace (p + 12 + 12) with (p + 24) by lia.
  replace (p + 12 + 24) with (p + 36) by lia.
  apply ok_eq; [reflexivity|lia].
Qed.

Lemma read_triangle_fail s p out :
  len < p + 48 ->
  exists p', read_triangle fd s (st p out) = (Raise StructError, st p' out).
Proof.
  intros Hp. unfold read_triangle.
  erewrite bind_ok by apply read_at.
  edestruct read_vertices_fail as [p' E];
    [|exists p'; erewrite bind_raise by exact E; reflexivity].
  lia.
Qed.

(** The triangle loop when every vertex read finds its bytes. *)
Lemma triangles_ok n : forall i s p out,
  (n = 0 \/ p + 50 * n <= len + 2) ->
  for_in (seq i n) (fun _ s => read_triangle fd s) s (st p out)
  = (Ok (fold_left update (map vertex_of (vertex_chunks (content fo) p n)) s),
     st (p + Nat.min (50 * n) (len - p)) out).
Proof.
  induction n as [|n IH]; intros i s p out Hn.
  - simpl. unfold ret. apply ok_eq; [reflexivity|lia].
  - cbn [seq for_in].
    erewrite bind_ok by (apply read_triangle_ok; lia).
    destruct n as [|n].
    + simpl. unfold ret. reflexivity.
    + replace (p + 50 `min` (len - p)) with (p + 50) by lia.
      rewrite IH by lia.
      apply ok_eq; [|lia].
      change (vertex_chunks (content fo) p (S (S n)))
        with (vertex_chunks (content fo) p 1 ++ vertex_chunks (content fo) (p + 50) (S n)).
      rewrite map_app, fold_left_app. reflexivity.
Qed.

(** The triangle loop when some vertex read underruns. *)
Lemma triangles_fail n : forall i s p out,
  1 <= n -> len + 2 < p + 50 * n ->
  exists p',
    for_in (seq i n) (fun _ s => read_triangle fd s) s (st p out)
    = (Raise StructError, st p' out).
Proof.
  induction n as [|n IH]; intros i s p out Hn Hlen; [lia|].
  cbn [seq for_in].
  destruct (decide (p + 48 <= len)) as [H|H].
  - erewrite bind_ok by (apply read_triangle_ok; lia).
    apply IH; lia.
  - edestruct read_triangle_fail as [p' E];
      [|exists p'; erewrite bind_raise by exact E; reflexivity].
    lia.
Qed.
End Body.

Section Simulation.
(** [get_info] keeps in two lists what [analyze_stl.py] keeps in six
    variables; the loops of the two scripts agree step by step. *)

Lemma update_lists_sim v s w :
  update_lists [v.1.1; v.1.2; v.2] (to_lists s) w = (Ok (to_lists (update s v)), w).
Proof. destruct v as [[x y] z], s. reflexivity. Qed.

Lemma for_in_sim {I S T} (enc : S -> T) (body1 : I -> S -> M S) (body2 : I -> T -> M T) :
  (forall i s w, body2 i (enc s) w = map_result enc (body1 i s w)) ->
  forall xs s w, for_in xs body2 (enc s) w = map_result enc (for_in xs body1 s w).
Proof.
  intros H xs. induction xs as [|x xs IH]; intros s w; [reflexivity|].
  cbn [for_in]. unfold bind. rewrite H.
  destruct (body1 x s w) as [[a|e] w1]; simpl; [apply IH|reflexivity].
Qed.

Lemma read_vertices_lists_sim fd s w :
  read_vertices_lists fd (to_lists s) w = map_result to_lists (read_vertices fd s w).
Proof.
  unfold read_vertices_lists, read_vertices. apply for_in_sim.
  clear. intros _ s w. unfold bind, lift, unpack_3f.
  destruct (read fd 12 w) as [[b|e] w1]; [|reflexivity].
  destruct (unpack_fff b) as [[[x y] z]|e]; [|reflexivity].
  apply (update_lists_sim (x, y, z)).
Qed.

Lemma read_triangle_lists_sim fd s w :
  read_triangle_lists fd (to_lists s) w = map_result to_lists (read_triangle fd s w).
Proof.
  unfold read_triangle_lists, read_triangle, bind.
  destruct (read fd 12 w) as [[b|e] w1]; [|reflexivity].
  rewrite read_vertices_lists_sim.
  destruct (read_vertices fd s w1) as [[s'|e] w2]; [|reflexivity]. simpl.
  destruct (read fd 2 w2) as [[b'|e] w3]; reflexivity.
Qed.

Lemma triangles_lists_sim fd xs s w :
  for_in xs (fun (_ : nat) mm => read_triangle_lists fd mm) (to_lists s) w
  = map_result to_lists (for_in xs (fun _ s => read_triangle fd s) s w).
Proof. apply for_in_sim. intros _. apply read_triangle_lists_sim. Qed.
End Simulation.

(** ** The [with] blocks of the two scripts *)

Section Blocks.
Variables (fs : gmap string (list byte)) (ds : gmap string (list string)).
Variables (hs : list file) (fd : nat) (fo : file).
Hypothesis Hfd : fd < length hs.
Hypothesis Hopen : closed fo = false.

Local Abbreviation st := (at_pos fs ds hs fd fo).
Local Abbreviation bs := (content fo).
Local Abbreviation len := (length (content fo)).

Lemma unpack_count : 84 <= len -> unpack_I (take 4 (drop 80 bs)) = Ok (count bs).
Proof.
  intros H. unfold unpack_I. rewrite length_take, length_drop.
  replace (4 `min` (len - 80)) with 4 by lia. reflexivity.
Qed.

(** The preamble: header and count field, followed by [k]. *)
Lemma preamble_ok {A} (k : Z -> M A) out :
  84 <= len ->
  (run read fd 80; do b <- read fd 4; do n <- lift (unpack_I b); k n) (st 0 out)
  = k (count bs) (st 84 out).
Proof.
  intros H.
  erewrite bind_ok by (apply read_at; assumption).
  erewrite bind_ok by (apply read_at; assumption).
  replace (0 + 80 `min` (len - 0)) with 80 by lia.
  replace (80 + 4 `min` (len - 80)) with 84 by lia.
  unfold bind at 1, lift.
  rewrite unpack_count by assumption. reflexivity.
Qed.

Lemma preamble_short {A} (k : Z -> M A) out :
  len < 84 ->
  exists p,
    (run read fd 80; do b <- read fd 4; do n <- lift (unpack_I b); k n) (st 0 out)
    = (Raise StructError, st p out).
Proof.
  intros H. eexists.
  erewrite bind_ok by (apply read_at; assumption).
  erewrite bind_ok by (apply read_at; assumption).
  unfold bind at 1, lift, unpack_I. rewrite length_take, length_drop.
  destruct (_ =? 4) eqn:E; [apply Nat.eqb_eq in E; lia|reflexivity].
Qed.

Lemma range_count : range (count bs) = seq 0 (ntriangles bs).
Proof. reflexivity. Qed.

(** *** [analyze_stl.py] *)

Lemma analyze_block_ok out :
  readable bs ->
  analyze_block fd (st 0 out)
  = (Ok tt,
     st (84 + Nat.min (50 * ntriangles bs) (len - 84))
        (out ++ NumTriangles (count bs) :: bbox_lines (extrema_after (vertices bs)))).
Proof.
  intros [H84 Hn]. unfold analyze_block.
  rewrite preamble_ok by assumption.
  erewrite bind_ok by apply print_at.
  rewrite range_count.
  erewrite bind_ok by (apply triangles_ok; [assumption..|lia]).
  fold (vertices bs). fold (extrema_after (vertices bs)).
  erewrite bind_ok by apply print_at.
  erewrite bind_ok by apply print_at.
  erewrite bind_ok by apply print_at.
  rewrite print_at. rewrite <- !app_assoc. reflexivity.
Qed.

Lemma analyze_block_short out :
  len < 84 ->
  exists p, analyze_block fd (st 0 out) = (Raise StructError, st p out).
Proof. intros H. apply preamble_short. assumption. Qed.

Lemma analyze_block_truncated out :
  84 <= len -> 1 <= ntriangles bs -> len < 82 + 50 * ntriangles bs ->
  exists p,
    analyze_block fd (st 0 out)
    = (Raise StructError, st p (out ++ [NumTriangles (count bs)])).
Proof.
  intros H84 Hn Hlen. unfold analyze_block.
  rewrite preamble_ok by assumption.
  erewrite bind_ok by apply print_at.
  rewrite range_count.
  edestruct (triangles_fail fs ds hs fd fo Hfd Hopen (ntriangles bs) 0 extrema0 84) as [p E];
    [eassumption|lia|].
  exists p. erewrite bind_raise by exact E. reflexivity.
Qed.

(** *** [get_info] *)

Lemma get_info_block_ok fname out :
  readable bs ->
  get_info_block fname fd (st 0 out)
  = (Ok tt,
     st (84 + Nat.min (50 * ntriangles bs) (len - 84))
        (out ++ summary_lines fname (count bs) (extrema_after (vertices bs)))).
Proof.
  intros [H84 Hn]. unfold get_info_block.
  rewrite preamble_ok by assumption.
  rewrite range_count.
  change (replicate 3 inf, replicate 3 neg_inf) with (to_lists extrema0).
  unfold bind at 1. rewrite triangles_lists_sim.
  rewrite triangles_ok by (assumption || lia).
  fold (vertices bs). fold (extrema_after (vertices bs)).
  cbn [map_result to_lists]. unfold getitem. cbn [lookup list_lookup].
  unfold bind, ret. rewrite !print_at. rewrite <- !app_assoc. reflexivity.
Qed.

Lemma get_info_block_short fname out :
  len < 84 ->
  exists p, get_info_block fname fd (st 0 out) = (Raise StructError, st p out).
Proof. intros H. apply preamble_short. assumption. Qed.

Lemma get_info_block_truncated fname out :
  84 <= len -> 1 <= ntriangles bs -> len < 82 + 50 * ntriangles bs ->
  exists p, get_info_block fname fd (st 0 out) = (Raise StructError, st p out).
Proof.
  intros H84 Hn Hlen. unfold get_info_block.
  rewrite preamble_ok by assumption.
  rewrite range_count.
  change (replicate 3 inf, replicate 3 neg_inf) with (to_lists extrema0).
  edestruct (triangles_fail fs ds hs fd fo Hfd Hopen (ntriangles bs) 0 extrema0 84) as [p E];
    [eassumption|lia|].
  exists p. unfold bind at 1. rewrite triangles_lists_sim, E. reflexivity.
Qed.
End Blocks.

(** ** The scripts on a file *)

Section Scripts.
Variable w : world.
Variables (path : string) (bs : list byte).

Local Abbreviation fo0 := (mkFile path bs 0 false).
Local Abbreviation fd0 := (length (handles w)).
Local Abbreviation opened :=
  (at_pos (files w) (dirs w) (handles w ++ [fo0]) fd0 fo0).

Lemma fd0_lt : fd0 < length (handles w ++ [fo0]).
Proof. rewrite length_app. simpl. lia. Qed.

Lemma with_open_missing {A} (body : nat -> M A) :
  files w !! path = None -> with_open path body w = (Raise OSError, w).
Proof. intros H. unfold with_open, open_rb. rewrite H. reflexivity. Qed.

Lemma with_open_run {A} (body : nat -> M A) r p out :
  has_file w path bs ->
  body fd0 (opened 0 (stdout w)) = (r, opened p out) ->
  with_open path body w = (r, closed_at w path bs p out).
Proof.
  intros Hf Hb. unfold with_open, open_rb. rewrite Hf.
  assert (E : set_handles (handles w ++ [fo0]) w = opened 0 (stdout w)).
  { unfold at_pos, set_handles. f_equal.
    rewrite insert_app_r_alt by lia. rewrite Nat.sub_diag. reflexivity. }
  rewrite E, Hb. f_equal.
  unfold close, at_pos, set_handles, closed_at. simpl.
  rewrite list_lookup_insert_eq by apply fd0_lt. simpl.
  rewrite list_insert_insert_eq.
  rewrite insert_app_r_alt by lia. rewrite Nat.sub_diag. reflexivity.
Qed.

Lemma not_readable :
  ~ readable bs ->
  length bs < 84 \/
  (84 <= length bs /\ 1 <= ntriangles bs /\ length bs < 82 + 50 * ntriangles bs).
Proof. unfold readable. lia. Qed.

Lemma analyze_file_ok :
  has_file w path bs -> readable bs ->
  with_open path analyze_block w
  = (Ok tt,
     closed_at w path bs (84 + Nat.min (50 * ntriangles bs) (length bs - 84))
       (stdout w ++ NumTriangles (count bs) :: bbox_lines (extrema_after (vertices bs)))).
Proof.
  intros Hf Hr. apply with_open_run; [assumption|].
  apply (analyze_block_ok _ _ _ _ fo0 fd0_lt eq_refl). assumption.
Qed.

Lemma analyze_file_fails :
  has_file w path bs -> ~ readable bs ->
  exists p,
    with_open path analyze_block w
    = (Raise StructError,
       closed_at w path bs p
         (stdout w ++ if 84 <=? length bs then [NumTriangles (count bs)] else [])).
Proof.
  intros Hf Hr. destruct (not_readable Hr) as [H|(H1 & H2 & H3)].
  - destruct (analyze_block_short (files w) (dirs w) (handles w ++ [fo0]) fd0 fo0 fd0_lt eq_refl (stdout w) H) as [p E].
    exists p. apply with_open_run; [assumption|].
    destruct (Nat.leb_spec 84 (length bs)); [lia|]. rewrite app_nil_r. exact E.
  - destruct (analyze_block_truncated (files w) (dirs w) (handles w ++ [fo0]) fd0 fo0 fd0_lt eq_refl (stdout w) H1 H2 H3) as [p E].
    exists p. apply with_open_run; [assumption|].
    destruct (Nat.leb_spec 84 (length bs)); [|lia]. exact E.
Qed.

Lemma get_info_ok :
  has_file w path bs -> readable bs ->
  get_info path w
  = (Ok tt,
     closed_at w path bs (84 + Nat.min (50 * ntriangles bs) (length bs - 84))
       (stdout w ++ summary_lines path (count bs) (extrema_after (vertices bs)))).
Proof.
  intros Hf Hr. apply with_open_run; [assumption|].
  apply (get_info_block_ok _ _ _ _ fo0 fd0_lt eq_refl). assumption.
Qed.

Lemma get_info_fails :
  has_file w path bs -> ~ readable bs ->
  exists p, get_info path w = (Raise StructError, closed_at w path bs p (stdout w)).
Proof.
  intros Hf Hr. destruct (not_readable Hr) as [H|(H1 & H2 & H3)].
  - destruct (get_info_block_short (files w) (dirs w) (handles w ++ [fo0]) fd0 fo0 fd0_lt eq_refl path (stdout w) H) as [p E].
    exists p. apply with_open_run; assumption.
  - destruct (get_info_block_truncated (files w) (dirs w) (handles w ++ [fo0]) fd0 fo0 fd0_lt eq_refl path (stdout w) H1 H2 H3)
      as [p E].
    exists p. apply with_open_run; assumption.
Qed.
End Scripts.

Lemma readable_dec (bs : list byte) : {readable bs} + {~ readable bs}.
Proof.
  unfold readable.
  destruct (le_dec 84 (length bs)); [|right; lia].
  destruct (Nat.eq_dec (ntriangles bs) 0); [left; lia|].
  destruct (le_dec (82 + 50 * ntriangles bs) (length bs)); [left|right]; lia.
Qed.

Lemma well_formed_readable (bs : list byte) : well_formed bs -> readable bs.
Proof. unfold well_formed, readable. lia. Qed.

Lemma analyze_stl_argv prog path rest :
  analyze_stl (prog :: path :: rest) = with_open path analyze_block.
Proof. reflexivity. Qed.

(** ** Running extrema *)

Section Extrema.

Lemma py_min_not_nan m c : is_nan m = false -> is_nan (py_min m c) = false.
Proof.
  intros Hm. unfold py_min. destruct (flt c m) eqn:E; [|assumption].
  apply flt_not_nan in E. tauto.
Qed.

Lemma py_max_not_nan m c : is_nan m = false -> is_nan (py_max m c) = false.
Proof.
  intros Hm. unfold py_max, fgt. fold (flt m c). destruct (flt m c) eqn:E; [|assumption].
  apply flt_not_nan in E. tauto.
Qed.

Lemma py_min_le_l m c : is_nan m = false -> fle (py_min m c) m = true.
Proof.
  intros Hm. unfold py_min. destruct (flt c m) eqn:E.
  - apply flt_fle. assumption.
  - apply fle_refl. assumption.
Qed.

Lemma py_max_ge_l m c : is_nan m = false -> fle m (py_max m c) = true.
Proof.
  intros Hm. unfold py_max, fgt. fold (flt m c). destruct (flt m c) eqn:E.
  - apply flt_fle. assumption.
  - apply fle_refl. assumption.
Qed.

Lemma py_min_le_r m c :
  is_nan m = false -> is_nan c = false -> fle (py_min m c) c = true.
Proof.
  intros Hm Hc. unfold py_min. destruct (flt c m) eqn:E.
  - apply fle_refl. assumption.
  - apply not_flt_fle; assumption.
Qed.

Lemma py_max_ge_r m c :
  is_nan m = false -> is_nan c = false -> fle c (py_max m c) = true.
Proof.
  intros Hm Hc. unfold py_max, fgt. fold (flt m c). destruct (flt m c) eqn:E.
  - apply fle_refl. assumption.
  - apply not_flt_fle; assumption.
Qed.

Lemma fold_min_not_nan cs : forall m,
  is_nan m = false -> is_nan (fold_left py_min cs m) = false.
Proof.
  induction cs as [|c cs IH]; intros m Hm; [assumption|].
  simpl. apply IH, py_min_not_nan, Hm.
Qed.

Lemma fold_max_not_nan cs : forall m,
  is_nan m = false -> is_nan (fold_left py_max cs m) = false.
Proof.
  induction cs as [|c cs IH]; intros m Hm; [assumption|].
  simpl. apply IH, py_max_not_nan, Hm.
Qed.

Lemma fold_min_le_init cs : forall m,
  is_nan m = false -> fle (fold_left py_min cs m) m = true.
Proof.
  induction cs as [|c cs IH]; intros m Hm; simpl.
  - apply fle_refl, Hm.
  - eapply fle_trans; [apply IH, py_min_not_nan, Hm|apply py_min_le_l, Hm].
Qed.

Lemma fold_max_ge_init cs : forall m,
  is_nan m = false -> fle m (fold_left py_max cs m) = true.
Proof.
  induction cs as [|c cs IH]; intros m Hm; simpl.
  - apply fle_refl, Hm.
  - eapply fle_trans; [apply py_max_ge_l, Hm|apply IH, py_max_not_nan, Hm].
Qed.

Lemma fold_min_le_elem cs : forall m c,
  is_nan m = false -> In c cs -> is_nan c = false ->
  fle (fold_left py_min cs m) c = true.
Proof.
  induction cs as [|c' cs IH]; intros m c Hm Hin Hc; [contradiction|].
  simpl. destruct Hin as [->|Hin].
  - eapply fle_trans; [apply fold_min_le_init, py_min_not_nan, Hm|].
    apply py_min_le_r; assumption.
  - apply IH; [apply py_min_not_nan, Hm|assumption..].
Qed.

Lemma fold_max_ge_elem cs : forall m c,
  is_nan m = false -> In c cs -> is_nan c = false ->
  fle c (fold_left py_max cs m) = true.
Proof.
  induction cs as [|c' cs IH]; intros m c Hm Hin Hc; [contradiction|].
  simpl. destruct Hin as [->|Hin].
  - eapply fle_trans; [|apply fold_max_ge_init, py_max_not_nan, Hm].
    apply py_max_ge_r; assumption.
  - apply IH; [apply py_max_not_nan, Hm|assumption..].
Qed.

Lemma fold_min_in cs : forall m,
  fold_left py_min cs m = m \/ In (fold_left py_min cs m) cs.
Proof.
  induction cs as [|c cs IH]; intros m; [left; reflexivity|].
  simpl. destruct (IH (py_min m c)) as [E|Hin]; [|right; right; assumption].
  rewrite E. unfold py_min. destruct (flt c m); [right; left|left]; reflexivity.
Qed.

Lemma fold_max_in cs : forall m,
  fold_left py_max cs m = m \/ In (fold_left py_max cs m) cs.
Proof.
  induction cs as [|c cs IH]; intros m; [left; reflexivity|].
  simpl. destruct (IH (py_max m c)) as [E|Hin]; [|right; right; assumption].
  rewrite E. unfold py_max. destruct (fgt c m); [right; left|left]; reflexivity.
Qed.

(** The six variables evolve independently, axis by axis. *)
Lemma fold_update vs : forall s,
  fold_left update vs s
  = mkExtrema (fold_left py_min (xs vs) (min_x s)) (fold_left py_min (ys vs) (min_y s))
              (fold_left py_min (zs vs) (min_z s))
              (fold_left py_max (xs vs) (max_x s)) (fold_left py_max (ys vs) (max_y s))
              (fold_left py_max (zs vs) (max_z s)).
Proof.
  induction vs as [|[[x y] z] vs IH]; intros s; [destruct s; reflexivity|].
  simpl. rewrite IH. reflexivity.
Qed.

Lemma extrema_after_axes vs :
  extrema_after vs
  = mkExtrema (run_min (xs vs)) (run_min (ys vs)) (run_min (zs vs))
              (run_max (xs vs)) (run_max (ys vs)) (run_max (zs vs)).
Proof. apply fold_update. Qed.

Lemma run_min_le_max cs :
  Exists (fun c => is_nan c = false) cs -> fle (run_min cs) (run_max cs) = true.
Proof.
  intros H. apply Exists_exists in H as (c & Hin & Hc).
  apply list_elem_of_In in Hin.
  apply fle_trans with c.
  - apply fold_min_le_elem; [reflexivity|assumption..].
  - apply fold_max_ge_elem; [reflexivity|assumption..].
Qed.

Lemma spans_run_min cs lo hi : spans cs lo hi -> feq (run_min cs) lo = true.
Proof.
  intros (Hall & Hlo & _).
  apply Exists_exists in Hlo as (c & Hin & Hc).
  assert (Hlo_nan : is_nan lo = false).
  { apply feq_fle, fle_not_nan in Hc. tauto. }
  apply fle_antisym.
  - apply fle_trans with c; [|apply feq_fle, Hc].
    apply fold_min_le_elem; [reflexivity|apply list_elem_of_In, Hin|].
    apply feq_fle, fle_not_nan in Hc. tauto.
  - destruct (fold_min_in cs inf) as [E|Hm]; unfold run_min.
    + rewrite E. apply fle_inf, Hlo_nan.
    + rewrite Forall_forall in Hall. apply list_elem_of_In in Hm.
      apply Hall in Hm. tauto.
Qed.

Lemma spans_run_max cs lo hi : spans cs lo hi -> feq (run_max cs) hi = true.
Proof.
  intros (Hall & _ & Hhi).
  apply Exists_exists in Hhi as (c & Hin & Hc).
  assert (Hhi_nan : is_nan hi = false).
  { apply feq_fle, fle_not_nan in Hc. tauto. }
  apply fle_antisym.
  - destruct (fold_max_in cs neg_inf) as [E|Hm]; unfold run_max.
    + rewrite E. apply neg_inf_fle, Hhi_nan.
    + rewrite Forall_forall in Hall. apply list_elem_of_In in Hm.
      apply Hall in Hm. tauto.
  - apply fle_trans with c; [apply feq_fle, feq_sym, Hc|].
    apply fold_max_ge_elem; [reflexivity|apply list_elem_of_In, Hin|].
    apply feq_fle, fle_not_nan in Hc. tauto.
Qed.
End Extrema.

(** ** The bytes the scripts depend on *)

Section Layout.

Lemma take_drop_agree (l1 l2 : list byte) q n :
  (forall k, q <= k < q + n -> l1 !! k = l2 !! k) ->
  take n (drop q l1) = take n (drop q l2).
Proof.
  intros H. apply list_eq. intros i. rewrite !lookup_take.
  case_decide; [|reflexivity]. rewrite !lookup_drop. apply H. lia.
Qed.

Lemma count_agree (l1 l2 : list byte) :
  (forall k, 80 <= k < 84 -> l1 !! k = l2 !! k) -> count l1 = count l2.
Proof.
  intros H. unfold count. f_equal. apply take_drop_agree. intros k Hk. apply H. lia.
Qed.

Lemma vertex_chunks_agree (l1 l2 : list byte) n : forall p,
  (forall i k, i < n -> 12 <= k < 48 -> l1 !! (p + 50 * i + k) = l2 !! (p + 50 * i + k)) ->
  vertex_chunks l1 p n = vertex_chunks l2 p n.
Proof.
  induction n as [|n IH]; intros p H; [reflexivity|].
  cbn [vertex_chunks].
  assert (Hc : forall q, 12 <= q -> q + 12 <= 48 ->
               take 12 (drop (p + q) l1) = take 12 (drop (p + q) l2)).
  { intros q H1 H2. apply take_drop_agree. intros k Hk.
    replace k with (p + 50 * 0 + (k - p)) by lia. apply H; lia. }
  rewrite !Hc by lia. do 3 f_equal.
  apply IH. intros i k Hi Hk.
  replace (p + 50 + 50 * i + k) with (p + 50 * S i + k) by lia. apply H; lia.
Qed.

Lemma vertices_agree (l1 l2 : list byte) :
  (forall k, 80 <= k < 84 -> l1 !! k = l2 !! k) ->
  (forall i k, i < ntriangles l1 -> 12 <= k < 48 ->
               l1 !! (84 + 50 * i + k) = l2 !! (84 + 50 * i + k)) ->
  count l1 = count l2 /\ vertices l1 = vertices l2.
Proof.
  intros Hc Hv. pose proof (count_agree l1 l2 Hc) as E. split; [assumption|].
  unfold vertices, ntriangles in *. rewrite <- E. f_equal.
  apply vertex_chunks_agree. assumption.
Qed.

Lemma byte_bound (b : byte) : (0 <= Z.of_N (Byte.to_N b) < 256)%Z.
Proof. pose proof (Byte.to_N_bounded b). lia. Qed.

Lemma le_to_Z_bound (l : list byte) : (0 <= le_to_Z l < 256 ^ Z.of_nat (length l))%Z.
Proof.
  induction l as [|b l IH]; [simpl; lia|].
  cbn [le_to_Z length]. rewrite Nat2Z.inj_succ, Z.pow_succ_r by lia.
  pose proof (byte_bound b). lia.
Qed.

Lemma count_bound (bs : list byte) : (0 <= count bs < 2 ^ 32)%Z.
Proof.
  unfold count. pose proof (le_to_Z_bound (take 4 (drop 80 bs))) as H.
  assert (length (take 4 (drop 80 bs)) <= 4) by (rewrite length_take; lia).
  assert (256 ^ Z.of_nat (length (take 4 (drop 80 bs))) <= 256 ^ 4)%Z
    by (apply Z.pow_le_mono_r; lia).
  change (2 ^ 32)%Z with (256 ^ 4)%Z. lia.
Qed.

(** The count is the little-endian value of bytes 80..83. *)
Lemma count_bytes (bs : list byte) b0 b1 b2 b3 :
  bs !! 80 = Some b0 -> bs !! 81 = Some b1 ->
  bs !! 82 = Some b2 -> bs !! 83 = Some b3 ->
  count bs = (Z.of_N (Byte.to_N b0) + 256 * Z.of_N (Byte.to_N b1)
              + 65536 * Z.of_N (Byte.to_N b2)
              + 16777216 * Z.of_N (Byte.to_N b3))%Z.
Proof.
  intros H0 H1 H2 H3. unfold count.
  assert (E : take 4 (drop 80 bs) = [b0; b1; b2; b3]).
  { apply list_eq. intros i. destruct (decide (i < 4)) as [Hi|Hi].
    - rewrite lookup_take_lt, lookup_drop by lia.
      destruct i as [|[|[|[|i]]]]; simpl; try assumption; lia.
    - rewrite lookup_take_ge by lia.
      destruct i as [|[|[|[|i]]]]; try lia; reflexivity. }
  rewrite E. cbn [le_to_Z]. lia.
Qed.

Lemma ntriangles_0 (bs : list byte) : ntriangles bs = 0 <-> count bs = 0%Z.
Proof. unfold ntriangles. pose proof (count_bound bs). lia. Qed.

Lemma lookup_truncated (bs : list byte) L k : k < L -> take L bs !! k = bs !! k.
Proof. apply lookup_take_lt. Qed.
End Layout.

(** ** Outcomes of a run, for every input *)

Section Outcomes.

Lemma all_closed_closed_at w path bs p out :
  all_closed w -> all_closed (closed_at w path bs p out).
Proof.
  unfold all_closed, closed_at. simpl. intros H.
  apply Forall_app. split; [assumption|]. repeat constructor.
Qed.

(** [get_info] either finds no file, or opens one and leaves it closed;
    it succeeds exactly on the readable files. *)
Lemma get_info_outcome w path :
  (files w !! path = None /\ get_info path w = (Raise OSError, w)) \/
  (exists bs p out r,
      has_file w path bs /\ get_info path w = (r, closed_at w path bs p out) /\
      (readable bs -> r = Ok tt) /\ (r = Ok tt -> readable bs)).
Proof.
  destruct (files w !! path) as [bs|] eqn:Hf.
  - right. destruct (readable_dec bs) as [Hr|Hr].
    + eexists bs, _, _, (Ok tt). split; [exact Hf|].
      split; [apply get_info_ok; assumption|]. tauto.
    + destruct (get_info_fails w path bs Hf Hr) as [p E].
      exists bs, p, (stdout w), (Raise StructError). split; [exact Hf|].
      split; [exact E|]. split; [tauto|discriminate].
  - left. split; [reflexivity|]. apply with_open_missing. assumption.
Qed.

Lemma analyze_outcome w path :
  (files w !! path = None /\ with_open path analyze_block w = (Raise OSError, w)) \/
  (exists bs p out r,
      has_file w path bs /\
      with_open path analyze_block w = (r, closed_at w path bs p out) /\
      (readable bs -> r = Ok tt) /\ (r = Ok tt -> readable bs)).
Proof.
  destruct (files w !! path) as [bs|] eqn:Hf.
  - right. destruct (readable_dec bs) as [Hr|Hr].
    + eexists bs, _, _, (Ok tt). split; [exact Hf|].
      split; [apply analyze_file_ok; assumption|]. tauto.
    + destruct (analyze_file_fails w path bs Hf Hr) as [p E].
      eexists bs, p, _, (Raise StructError). split; [exact Hf|].
      split; [exact E|]. split; [tauto|discriminate].
  - left. split; [reflexivity|]. apply with_open_missing. assumption.
Qed.

Lemma get_info_all_closed w path :
  all_closed w -> all_closed (snd (get_info path w)).
Proof.
  intros H. destruct (get_info_outcome w path) as [[_ E]|(bs & p & out & r & _ & E & _)];
    rewrite E; simpl; [assumption|].
  apply all_closed_closed_at. assumption.
Qed.

Lemma analyze_all_closed w path :
  all_closed w -> all_closed (snd (with_open path analyze_block w)).
Proof.
  intros H. destruct (analyze_outcome w path) as [[_ E]|(bs & p & out & r & _ & E & _)];
    rewrite E; simpl; [assumption|].
  apply all_closed_closed_at. assumption.
Qed.

Lemma analyze_stl_with_open argv :
  exists path, analyze_stl argv = with_open path analyze_block.
Proof. unfold analyze_stl. eexists. reflexivity. Qed.

(** The loop of the directory scan over the names [l]. *)
Lemma scan_all_closed (l : list string) : forall w,
  all_closed w ->
  all_closed (snd (for_in l (fun f (_ : unit) =>
                     if endswith f ".stl" then get_info (path_join output_dir f)
                     else ret tt) tt w)).
Proof.
  induction l as [|f l IH]; intros w H; [assumption|].
  cbn [for_in]. unfold bind.
  destruct (endswith f ".stl").
  - pose proof (get_info_all_closed w (path_join output_dir f) H) as Hc.
    destruct (get_info (path_join output_dir f) w) as [[[]|e] w1]; simpl in Hc.
    + apply IH. assumption.
    + assumption.
  - unfold ret at 1. apply IH. assumption.
Qed.

Lemma check_single_stl_all_closed argv w :
  all_closed w -> all_closed (snd (check_single_stl argv w)).
Proof.
  intros H. unfold check_single_stl.
  assert (Hscan : all_closed (snd ((do l <- listdir output_dir;
            for_in (sorted l) (fun f (_ : unit) =>
              if endswith f ".stl" then get_info (path_join output_dir f)
              else ret tt) tt) w))).
  { unfold bind, listdir. destruct (dirs w !! output_dir) as [l|]; [|assumption].
    apply scan_all_closed. assumption. }
  destruct argv as [|a [|b argv]]; try exact Hscan.
  apply get_info_all_closed. assumption.
Qed.

(** Two readable files that agree on the count field and on the vertex
    fields give the same result and the same lines. *)
Lemma runs_agree w1 w2 path bs1 bs2 :
  has_file w1 path bs1 -> has_file w2 path bs2 -> stdout w1 = stdout w2 ->
  readable bs1 -> readable bs2 ->
  (forall k, 80 <= k < 84 -> bs1 !! k = bs2 !! k) ->
  (forall i k, i < ntriangles bs1 -> 12 <= k < 48 ->
               bs1 !! (84 + 50 * i + k) = bs2 !! (84 + 50 * i + k)) ->
  (fst (with_open path analyze_block w1) = Ok tt /\
   fst (with_open path analyze_block w2) = Ok tt /\
   stdout (snd (with_open path analyze_block w1))
   = stdout (snd (with_open path analyze_block w2))) /\
  (fst (get_info path w1) = Ok tt /\
   fst (get_info path w2) = Ok tt /\
   stdout (snd (get_info path w1)) = stdout (snd (get_info path w2))).
Proof.
  intros Hf1 Hf2 Hout Hr1 Hr2 Hc Hv.
  destruct (vertices_agree bs1 bs2 Hc Hv) as [Ec Ev].
  rewrite (analyze_file_ok w1 path bs1 Hf1 Hr1), (analyze_file_ok w2 path bs2 Hf2 Hr2).
  rewrite (get_info_ok w1 path bs1 Hf1 Hr1), (get_info_ok w2 path bs2 Hf2 Hr2).
  simpl. rewrite Hout, Ec, Ev. repeat split.
Qed.
End Outcomes.

Lemma agree_on_range (l1 l2 : list byte) (a n : nat) :
  take n (drop a l1) = take n (drop a l2) ->
  forall k, a <= k < a + n -> l1 !! k = l2 !! k.
Proof.
  intros E k Hk.
  assert (H : forall l : list byte, l !! k = take n (drop a l) !! (k - a)).
  { intros l. rewrite lookup_take_lt, lookup_drop by lia. f_equal. lia. }
  rewrite (H l1), (H l2), E. reflexivity.
Qed.

(** ** Synthesised files *)

Section Synth.

Lemma byte_of_Z_value (z : Z) : Z.of_N (Byte.to_N (byte_of_Z z)) = (z mod 256)%Z.
Proof.
  unfold byte_of_Z. assert (0 <= z mod 256 < 256)%Z by (apply Z.mod_pos_bound; lia).
  destruct (Byte.of_N (Z.to_N (z mod 256))) as [b|] eqn:E.
  - apply Byte.to_of_N in E. rewrite E. lia.
  - apply Byte.of_N_None_iff in E. lia.
Qed.

Lemma unpack_pack_I (k : Z) : (0 <= k < 2 ^ 32)%Z -> le_to_Z (pack_I k) = k.
Proof.
  intros H. unfold pack_I. cbn [le_to_Z]. rewrite !byte_of_Z_value.
  change (2 ^ 32)%Z with 4294967296%Z in H.
  Z.to_euclidean_division_equations. lia.
Qed.

Ltac explode l H :=
  simpl in H;
  repeat (destruct l as [|? l]; [discriminate H|]; simpl in H);
  destruct l; [clear H|discriminate H].

Lemma facet_bytes_length t : facet_ok t -> length (facet_bytes t) = 50.
Proof.
  intros (Hn & Hc & Hall & Ha). unfold facet_bytes.
  rewrite !length_app, Hn, Ha.
  destruct t as [nm cs at_]. simpl in *.
  explode cs Hc.
  repeat match goal with
         | H : Forall _ (_ :: _) |- _ => apply Forall_cons in H as [? H]
         end.
  simpl. rewrite !length_app. simpl. lia.
Qed.

Lemma records_length ts :
  Forall facet_ok ts -> length (concat (map facet_bytes ts)) = 50 * length ts.
Proof.
  induction 1 as [|t ts Ht _ IH]; [reflexivity|].
  cbn [map concat length]. rewrite length_app, IH, facet_bytes_length by assumption. lia.
Qed.

Lemma synth_length header ts :
  length header = 80 -> Forall facet_ok ts ->
  length (synth header ts) = 84 + 50 * length ts.
Proof.
  intros Hh Hts. unfold synth. rewrite !length_app, Hh, records_length by assumption.
  simpl. lia.
Qed.

Lemma synth_count header ts :
  length header = 80 -> (Z.of_nat (length ts) < 2 ^ 32)%Z ->
  count (synth header ts) = Z.of_nat (length ts).
Proof.
  intros Hh Hk. unfold count, synth.
  rewrite drop_app_length' by (symmetry; exact Hh).
  rewrite take_app_length' by reflexivity.
  apply unpack_pack_I. lia.
Qed.

(** The vertex fields of a record followed by anything. *)
Lemma facet_chunks t rest :
  facet_ok t ->
  map vertex_of
    [ take 12 (drop 12 (facet_bytes t ++ rest));
      take 12 (drop 24 (facet_bytes t ++ rest));
      take 12 (drop 36 (facet_bytes t ++ rest)) ]
  = facet_vertices t.
Proof.
  intros (Hn & Hc & Hall & Ha). unfold facet_bytes, facet_vertices.
  destruct t as [nm cs at_]. simpl in *.
  explode nm Hn. explode cs Hc.
  repeat match goal with
         | H : Forall _ (_ :: _) |- _ => apply Forall_cons in H as [? H]
         end.
  repeat match goal with
         | H : length ?l = 4 |- _ => explode l H
         end.
  reflexivity.
Qed.

Lemma records_vertices ts : forall pre,
  Forall facet_ok ts ->
  map vertex_of (vertex_chunks (pre ++ concat (map facet_bytes ts)) (length pre) (length ts))
  = concat (map facet_vertices ts).
Proof.
  induction ts as [|t ts IH]; intros pre Hts; [reflexivity|].
  apply Forall_cons in Hts as [Ht Hts].
  cbn [map concat length vertex_chunks].
  rewrite !drop_app_add.
  rewrite <- (facet_chunks t (concat (map facet_bytes ts)) Ht).
  cbn [map app]. do 3 f_equal.
  rewrite <- (IH (pre ++ facet_bytes t) Hts).
  rewrite length_app, facet_bytes_length by assumption.
  rewrite <- app_assoc. reflexivity.
Qed.

Lemma synth_vertices header ts :
  length header = 80 -> (Z.of_nat (length ts) < 2 ^ 32)%Z -> Forall facet_ok ts ->
  vertices (synth header ts) = concat (map facet_vertices ts).
Proof.
  intros Hh Hk Hts. unfold vertices, ntriangles. rewrite synth_count by assumption.
  rewrite Nat2Z.id. unfold synth. rewrite app_assoc.
  rewrite <- (records_vertices ts (header ++ pack_I (Z.of_nat (length ts))) Hts).
  rewrite length_app, Hh. reflexivity.
Qed.

Lemma facet_axes t :
  facet_ok t ->
  xs (facet_vertices t) = facet_axis 0 t /\
  ys (facet_vertices t) = facet_axis 1 t /\
  zs (facet_vertices t) = facet_axis 2 t.
Proof.
  intros (Hn & Hc & Hall & Ha). unfold facet_vertices, facet_axis, xs, ys, zs.
  destruct t as [nm cs at_]. simpl in *.
  explode cs Hc.
  repeat match goal with
         | H : Forall _ (_ :: _) |- _ => apply Forall_cons in H as [? H]
         end.
  repeat match goal with
         | H : length ?l = 4 |- _ => explode l H
         end.
  repeat split; reflexivity.
Qed.

Lemma synth_axes ts :
  Forall facet_ok ts ->
  xs (concat (map facet_vertices ts)) = axis_values 0 ts /\
  ys (concat (map facet_vertices ts)) = axis_values 1 ts /\
  zs (concat (map facet_vertices ts)) = axis_values 2 ts.
Proof.
  induction 1 as [|t ts Ht _ (IHx & IHy & IHz)]; [repeat split|].
  destruct (facet_axes t Ht) as (Ex & Ey & Ez).
  unfold xs, ys, zs, axis_values in *. cbn [map concat].
  rewrite !map_app, IHx, IHy, IHz.
  unfold xs, ys, zs in Ex, Ey, Ez. rewrite Ex, Ey, Ez. repeat split.
Qed.
End Synth.

Lemma vertices_nonempty (bs : list byte) :
  (0 < count bs)%Z -> exists v vs, vertices bs = v :: vs.
Proof.
  intros H. unfold vertices, ntriangles.
  destruct (Z.to_nat (count bs)) as [|n] eqn:E; [lia|].
  cbn [vertex_chunks map]. eexists _, _. reflexivity.
Qed.

(** ** The directory scan *)

Section Scan.

Lemma ascii_compare_trans (a b c : ascii) :
  Ascii.compare a b <> Gt -> Ascii.compare b c <> Gt -> Ascii.compare a c <> Gt.
Proof.
  unfold Ascii.compare. rewrite !N.compare_le_iff. lia.
Qed.

Lemma str_compare_trans (a : string) : forall b c,
  String.compare a b <> Gt -> String.compare b c <> Gt -> String.compare a c <> Gt.
Proof.
  induction a as [|x a IH]; intros [|y b] [|z c]; simpl; try congruence.
  destruct (Ascii.compare x y) eqn:Exy; try congruence;
    destruct (Ascii.compare y z) eqn:Eyz; try congruence.
  - apply Ascii.compare_eq_iff in Exy, Eyz. subst.
    destruct (Ascii.compare z z) eqn:E; try congruence; [apply IH|].
    pose proof (Ascii.compare_antisym z z) as H. rewrite E in H. discriminate.
  - apply Ascii.compare_eq_iff in Exy. subst. rewrite Eyz. congruence.
  - apply Ascii.compare_eq_iff in Eyz. subst. rewrite Exy. congruence.
  - intros _ _.
    assert (H : Ascii.compare x z <> Gt)
      by (apply (ascii_compare_trans x y z); congruence).
    destruct (Ascii.compare x z) eqn:E; try congruence.
    apply Ascii.compare_eq_iff in E. subst.
    rewrite Ascii.compare_antisym, Exy in Eyz. discriminate.
Qed.

#[local] Instance str_le_trans : Transitive str_le.
Proof.
  intros a b c. unfold str_le, String.leb. intros H1 H2.
  pose proof (str_compare_trans a b c) as H.
  destruct (String.compare a b), (String.compare b c), (String.compare a c);
    try discriminate; try reflexivity; exfalso; apply H; congruence.
Qed.

#[local] Instance str_le_total : Total str_le.
Proof. intros a b. apply String.leb_total. Qed.

Lemma sorted_strongly (l : list string) : StronglySorted str_le (sorted l).
Proof. apply StronglySorted_merge_sort; apply _. Qed.

Lemma sorted_perm (l : list string) : sorted l ≡ₚ l.
Proof. apply merge_sort_Permutation. Qed.

Lemma filter_perm (p : string -> bool) (l1 l2 : list string) :
  l1 ≡ₚ l2 -> List.filter p l1 ≡ₚ List.filter p l2.
Proof.
  induction 1 as [|x l1 l2 _ IH|x y l|l1 l2 l3 _ IH1 _ IH2]; simpl.
  - constructor.
  - destruct (p x); [constructor|]; assumption.
  - destruct (p x), (p y); try reflexivity. constructor.
  - etransitivity; eassumption.
Qed.

Lemma filter_strongly (p : string -> bool) (l : list string) :
  StronglySorted str_le l -> StronglySorted str_le (List.filter p l).
Proof.
  induction 1 as [|x l _ IH Hall]; simpl; [constructor|].
  destruct (p x); [|assumption]. constructor; [assumption|].
  rewrite List.Forall_forall in *. intros y Hy.
  apply List.filter_In in Hy as [Hy _]. apply Hall, Hy.
Qed.
#[local] Instance str_le_antisym : AntiSymm (=) str_le.
Proof. intros a b. apply String.leb_antisym. Qed.

(** [sorted l] is the only ascending arrangement of [l]: the model does not
    depend on the sorting algorithm. *)
Lemma sorted_unique (l l' : list string) :
  l' ≡ₚ l -> StronglySorted str_le l' -> l' = sorted l.
Proof.
  intros Hp Hs. apply (StronglySorted_unique str_le); [assumption|apply sorted_strongly|].
  rewrite Hp. symmetry. apply sorted_perm.
Qed.
End Scan.

Section ScanTrace.

Local Abbreviation scan_body :=
  (fun f (_ : unit) =>
     if endswith f ".stl" then get_info (path_join output_dir f) else ret tt).

(** The loop of the scan opens, in order, the files of the names of [l]
    that end in ".stl", up to and including the first one on which
    [get_info] raises. *)
Lemma scan_trace (l : list string) : forall w,
  exists k new,
    files (snd (for_in l scan_body tt w)) = files w /\
    handles (snd (for_in l scan_body tt w)) = handles w ++ new /\
    map name new = map (path_join output_dir) (take k (List.filter is_stl l)) /\
    k <= length (List.filter is_stl l) /\
    (fst (for_in l scan_body tt w) = Ok tt -> k = length (List.filter is_stl l)) /\
    ((forall f, In f (List.filter is_stl l) ->
        exists bs, has_file w (path_join output_dir f) bs /\ readable bs) ->
     fst (for_in l scan_body tt w) = Ok tt).
Proof.
  induction l as [|f l IH]; intros w.
  - exists 0, []. simpl. rewrite app_nil_r. repeat split; reflexivity.
  - cbn [for_in List.filter]. unfold bind. change (is_stl f) with (endswith f ".stl").
    destruct (endswith f ".stl") eqn:Ef.
    + destruct (get_info_outcome w (path_join output_dir f))
        as [[Hnone E]|(bs & p & out & r & Hf & E & Hok & Hrd)]; rewrite E.
      * exists 0, []. simpl. rewrite app_nil_r.
        repeat split; try reflexivity; try lia; try discriminate.
        intros H. destruct (H f (or_introl eq_refl)) as (bs & Hb & _).
        unfold has_file in Hb. congruence.
      * destruct r as [[]|e].
        -- destruct (IH (closed_at w (path_join output_dir f) bs p out))
             as (k & new & Hfs & Hh & Hn & Hk & Hall & Hgood).
           exists (S k), (mkFile (path_join output_dir f) bs p true :: new).
           split; [exact Hfs|]. split; [rewrite Hh; simpl; rewrite <- app_assoc; reflexivity|].
           split; [simpl; rewrite Hn; reflexivity|].
           split; [simpl; lia|]. split; [intros H; simpl; f_equal; apply Hall, H|].
           intros H. apply Hgood. intros g Hg. apply (H g). right. exact Hg.
        -- exists 1, [mkFile (path_join output_dir f) bs p true]. simpl.
           repeat split; try reflexivity; try lia; try discriminate.
           intros H. destruct (H f (or_introl eq_refl)) as (bs' & Hb & Hr').
           unfold has_file in Hb, Hf. rewrite Hf in Hb. injection Hb as <-.
           specialize (Hok Hr'). discriminate.
    + unfold ret at 1. apply IH.
Qed.
End ScanTrace.

Section ScanStops.

Local Abbreviation scan_body :=
  (fun f (_ : unit) =>
     if endswith f ".stl" then get_info (path_join output_dir f) else ret tt).

(** The loop of the scan ends at the first selected entry on which
    [get_info] raises: with that exception, the file objects of the
    entries up to it, and the lines of the entries before it. *)
Lemma scan_stops (l : list string) : forall w pre f0 post,
  List.filter is_stl l = pre ++ f0 :: post ->
  (forall f, In f pre -> entry_ok w f) -> ~ entry_ok w f0 ->
  exists new,
    fst (for_in l scan_body tt w) = Raise (entry_error w f0) /\
    handles (snd (for_in l scan_body tt w)) = handles w ++ new /\
    map name new = map (path_join output_dir) (entries_opened w pre f0) /\
    stdout (snd (for_in l scan_body tt w))
    = stdout w ++ concat (map (scan_lines w) pre).
Proof.
  induction l as [|f l IH]; intros w pre f0 post Hsel Hpre Hbad.
  - destruct pre; discriminate.
  - cbn [for_in List.filter] in *. unfold bind.
    change (is_stl f) with (endswith f ".stl") in Hsel.
    destruct (endswith f ".stl") eqn:Ef.
    + destruct pre as [|g pre].
      * (* the failing entry *)
        injection Hsel as -> Hpost.
        unfold entry_error, entries_opened.
        destruct (files w !! path_join output_dir f0) as [bs|] eqn:Hf.
        -- assert (Hr : ~ readable bs) by (intros Hr; apply Hbad; exists bs; split; assumption).
           destruct (get_info_fails w _ bs Hf Hr) as [p ->].
           exists [mkFile (path_join output_dir f0) bs p true].
           cbn [fst snd handles stdout closed_at map concat app].
           rewrite app_nil_r. repeat split.
        -- unfold get_info. rewrite with_open_missing by assumption.
           exists []. cbn [fst snd map concat app]. rewrite !app_nil_r. repeat split.
      * (* an entry before it *)
        injection Hsel as -> Hsel.
        destruct (Hpre g (or_introl eq_refl)) as (bs & Hf & Hr).
        rewrite (get_info_ok w _ bs Hf Hr).
        destruct (IH (closed_at w (path_join output_dir g) bs
                        (84 + Nat.min (50 * ntriangles bs) (length bs - 84))
                        (stdout w ++ summary_lines (path_join output_dir g) (count bs)
                                       (extrema_after (vertices bs))))
                     pre f0 post Hsel)
          as (new & Hres & Hh & Hn & Hout).
        { intros h Hh. apply (Hpre h). right. exact Hh. }
        { exact Hbad. }
        exists (mkFile (path_join output_dir g) bs
                  (84 + Nat.min (50 * ntriangles bs) (length bs - 84)) true :: new).
        split; [exact Hres|]. split; [rewrite Hh; cbn [handles closed_at]; rewrite <- app_assoc; reflexivity|].
        split; [cbn [map name]; rewrite Hn; reflexivity|].
        rewrite Hout. cbn [stdout closed_at map concat]. rewrite <- app_assoc.
        f_equal. f_equal. unfold scan_lines at 1. unfold has_file in Hf. rewrite Hf. reflexivity.
    + unfold ret at 1. apply (IH w pre f0 post Hsel Hpre Hbad).
Qed.
End ScanStops.

Lemma entry_ok_dec (w : world) (f : string) : {entry_ok w f} + {~ entry_ok w f}.
Proof.
  unfold entry_ok, has_file.
  destruct (files w !! path_join output_dir f) as [bs|] eqn:Hf.
  - destruct (readable_dec bs) as [Hr|Hr].
    + left. exists bs. split; [reflexivity|exact Hr].
    + right. intros (bs' & E & Hr'). injection E as <-. exact (Hr Hr').
  - right. intros (bs' & E & _). discriminate.
Qed.

(** Either [get_info] succeeds on every entry of [l], or [l] has a first
    entry on which it does not. *)
Lemma first_failing_entry (w : world) (l : list string) :
  (forall f, In f l -> entry_ok w f) \/
  exists pre f0 post,
    l = pre ++ f0 :: post /\ (forall f, In f pre -> entry_ok w f) /\ ~ entry_ok w f0.
Proof.
  induction l as [|g l IH].
  - left. intros f [].
  - destruct (entry_ok_dec w g) as [Hg|Hg].
    + destruct IH as [Hall|(pre & f0 & post & -> & Hpre & Hbad)].
      * left. intros f [<-|Hf]; [exact Hg|exact (Hall f Hf)].
      * right. exists (g :: pre), f0, post. split; [reflexivity|]. split; [|exact Hbad].
        intros f [<-|Hf]; [exact Hg|exact (Hpre f Hf)].
    + right. exists [], g, l. split; [reflexivity|]. split; [intros f []|exact Hg].
Qed.

(* ===================================================================== *)
(** * The claims *)
(* ===================================================================== *)

(** C1. Round trip: for a file synthesised from an 80-byte header, the
    count K and K triangle records whose coordinates span the box [B] on
    each axis, both scripts succeed and report the count K, and the
    extrema they hold and print are equal to the bounds of [B] under float
    equality ([==]); every record has been consumed. *)
Theorem C1_roundtrip
    (w : world) (prog path : string) (header : list byte) (ts : list facet) (B : box) :
  length header = 80 -> Forall facet_ok ts -> (Z.of_nat (length ts) < 2 ^ 32)%Z ->
  spans_box ts B ->
  has_file w path (synth header ts) ->
  exists s,
    box_eq s B /\
    analyze_stl [prog; path] w
    = (Ok tt,
       closed_at w path (synth header ts) (84 + 50 * length ts)
         (stdout w ++ NumTriangles (Z.of_nat (length ts)) :: bbox_lines s)) /\
    get_info path w
    = (Ok tt,
       closed_at w path (synth header ts) (84 + 50 * length ts)
         (stdout w ++ summary_lines path (Z.of_nat (length ts)) s)).
Proof.
  intros Hh Hts Hk (Hx & Hy & Hz) Hf.
  pose proof (synth_length header ts Hh Hts) as Hlen.
  pose proof (synth_count header ts Hh Hk) as Hc.
  assert (Hn : ntriangles (synth header ts) = length ts)
    by (unfold ntriangles; rewrite Hc; apply Nat2Z.id).
  assert (Hr : readable (synth header ts)) by (unfold readable; lia).
  exists (extrema_after (vertices (synth header ts))). split; [|split].
  - rewrite extrema_after_axes, synth_vertices by assumption.
    destruct (synth_axes ts Hts) as (-> & -> & ->).
    unfold box_eq. cbn [min_x min_y min_z max_x max_y max_z].
    split; [exact (spans_run_min _ _ _ Hx)|].
    split; [exact (spans_run_max _ _ _ Hx)|].
    split; [exact (spans_run_min _ _ _ Hy)|].
    split; [exact (spans_run_max _ _ _ Hy)|].
    split; [exact (spans_run_min _ _ _ Hz)|exact (spans_run_max _ _ _ Hz)].
  - rewrite analyze_stl_argv, (analyze_file_ok w path _ Hf Hr), Hn, Hc, Hlen.
    replace (84 + Nat.min (50 * length ts) (84 + 50 * length ts - 84))
      with (84 + 50 * length ts) by lia.
    reflexivity.
  - rewrite (get_info_ok w path _ Hf Hr), Hn, Hc, Hlen.
    replace (84 + Nat.min (50 * length ts) (84 + 50 * length ts - 84))
      with (84 + 50 * length ts) by lia.
    reflexivity.
Qed.

Lemma C1_witness :
  exists s,
    box_eq s (mkBox (unpack_f f32_minus_three) (unpack_f f32_two)
                    (unpack_f f32_minus_three) (unpack_f f32_two)
                    (unpack_f f32_minus_three) (unpack_f f32_two)) /\
    stdout (snd (analyze_stl ["analyze_stl.py"; "a.stl"] (single_file "a.stl" stl_one)))
    = NumTriangles 1 :: bbox_lines s.
Proof.
  destruct (C1_roundtrip (single_file "a.stl" stl_one) "analyze_stl.py" "a.stl"
              (zeros 80) [facet_a]
              (mkBox (unpack_f f32_minus_three) (unpack_f f32_two)
                     (unpack_f f32_minus_three) (unpack_f f32_two)
                     (unpack_f f32_minus_three) (unpack_f f32_two)))
    as (s & Hs & Ha & _).
  - reflexivity.
  - repeat constructor.
  - vm_compute. reflexivity.
  - unfold spans_box, spans.
    repeat split;
      first [ solve [apply Exists_cons_hd; vm_compute; reflexivity]
            | solve [apply Exists_cons_tl, Exists_cons_hd; vm_compute; reflexivity]
            | solve [apply Exists_cons_tl, Exists_cons_tl, Exists_cons_hd;
                     vm_compute; reflexivity]
            | solve [repeat (apply List.Forall_cons; [split; vm_compute; reflexivity|]);
                     apply List.Forall_nil] ].
  - reflexivity.
  - exists s. split; [exact Hs|]. rewrite Ha. reflexivity.
Defined.

(** C2 as stated fails: a well-formed file with one triangle whose
    coordinates are all NaN is processed without error, and the extrema
    stay at their initial values, so that min <= max is false on every
    axis although the count is 1. *)
Lemma C2_counterexample :
  well_formed stl_nan /\ (0 < count stl_nan)%Z /\
  analyze_stl ["analyze_stl.py"; "a.stl"] (single_file "a.stl" stl_nan)
  = (Ok tt,
     closed_at (single_file "a.stl" stl_nan) "a.stl" stl_nan 134
       [ NumTriangles 1; BoundingBox;
         AxisLine "X" inf neg_inf neg_inf;
         AxisLine "Y" inf neg_inf neg_inf;
         AxisLine "Z" inf neg_inf neg_inf ]) /\
  fle inf neg_inf = false.
Proof.
  split; [unfold well_formed; vm_compute; lia|].
  split; [reflexivity|]. split; vm_compute; reflexivity.
Qed.

(** C2, amended.  For every well-formed input both scripts succeed with
    the extrema of the vertex stream; on each axis min <= max holds as soon
    as one vertex coordinate of that axis is not NaN, in particular when
    the count is positive and no coordinate is NaN; when the count is zero
    the minima are +infinity and the maxima -infinity. *)
Theorem C2_min_le_max (w : world) (prog path : string) (bs : list byte) :
  has_file w path bs -> well_formed bs ->
  let s := extrema_after (vertices bs) in
  (analyze_stl [prog; path] w
   = (Ok tt, closed_at w path bs (84 + 50 * ntriangles bs)
               (stdout w ++ NumTriangles (count bs) :: bbox_lines s)) /\
   get_info path w
   = (Ok tt, closed_at w path bs (84 + 50 * ntriangles bs)
               (stdout w ++ summary_lines path (count bs) s))) /\
  (Exists (fun c => is_nan c = false) (xs (vertices bs)) -> fle (min_x s) (max_x s) = true) /\
  (Exists (fun c => is_nan c = false) (ys (vertices bs)) -> fle (min_y s) (max_y s) = true) /\
  (Exists (fun c => is_nan c = false) (zs (vertices bs)) -> fle (min_z s) (max_z s) = true) /\
  ((0 < count bs)%Z -> Forall no_nan (vertices bs) ->
     fle (min_x s) (max_x s) = true /\ fle (min_y s) (max_y s) = true /\
     fle (min_z s) (max_z s) = true) /\
  (count bs = 0%Z -> s = extrema0).
Proof.
  intros Hf Hwf s.
  assert (Hp : 84 + Nat.min (50 * ntriangles bs) (length bs - 84) = 84 + 50 * ntriangles bs)
    by (unfold well_formed in Hwf; lia).
  split; [split|].
  - rewrite analyze_stl_argv, (analyze_file_ok w path bs Hf) by apply well_formed_readable, Hwf.
    rewrite Hp. reflexivity.
  - rewrite (get_info_ok w path bs Hf) by apply well_formed_readable, Hwf.
    rewrite Hp. reflexivity.
  - subst s. rewrite extrema_after_axes. cbn [min_x min_y min_z max_x max_y max_z].
    split; [apply run_min_le_max|]. split; [apply run_min_le_max|].
    split; [apply run_min_le_max|]. split.
    + intros Hc Hall. destruct (vertices_nonempty bs Hc) as (v & vs & E).
      rewrite E in *. apply Forall_cons in Hall as [(Hx & Hy & Hz) _].
      repeat split; apply run_min_le_max; apply Exists_cons_hd; assumption.
    + intros H0. apply ntriangles_0 in H0. unfold vertices. rewrite H0. reflexivity.
Qed.

Lemma C2_witness :
  fle (min_x (extrema_after (vertices stl_one))) (max_x (extrema_after (vertices stl_one)))
  = true /\
  fst (get_info "a.stl" (single_file "a.stl" stl_one)) = Ok tt.
Proof.
  destruct (C2_min_le_max (single_file "a.stl" stl_one) "analyze_stl.py" "a.stl" stl_one)
    as ((_ & Hg) & Hx & _).
  - reflexivity.
  - unfold well_formed. vm_compute. lia.
  - split.
    + apply Hx. apply Exists_cons_hd. vm_compute. reflexivity.
    + rewrite Hg. reflexivity.
Defined.

(** C3 as stated fails: a file with count 1 that lacks the 2 attribute
    bytes of its record has 132 bytes, fewer than 84 + 50, and both scripts
    succeed on it and print their result. *)
Lemma C3_counterexample :
  length (take 132 stl_one) < 84 + 50 * ntriangles (take 132 stl_one) /\
  fst (get_info "a.stl" (single_file "a.stl" (take 132 stl_one))) = Ok tt /\
  fst (analyze_stl ["analyze_stl.py"; "a.stl"] (single_file "a.stl" (take 132 stl_one)))
  = Ok tt /\
  stdout (snd (analyze_stl ["analyze_stl.py"; "a.stl"]
                 (single_file "a.stl" (take 132 stl_one))))
  = NumTriangles 1 :: bbox_lines (extrema_after (vertices stl_one)).
Proof.
  split; [vm_compute; lia|]. repeat split; vm_compute; reflexivity.
Qed.

(** C3, amended.  For every input file of at least 84 bytes with a count
    N >= 1 and fewer than 82 + 50 N bytes (a vertex read underruns), both
    scripts fail with a struct error and print no bounding-box result:
    [get_info] prints nothing, [analyze_stl.py] has printed the count line
    only. *)
Theorem C3_truncated_fails (w : world) (prog path : string) (bs : list byte) :
  has_file w path bs ->
  84 <= length bs -> 1 <= ntriangles bs -> length bs < 82 + 50 * ntriangles bs ->
  exists p q,
    get_info path w = (Raise StructError, closed_at w path bs p (stdout w)) /\
    analyze_stl [prog; path] w
    = (Raise StructError,
       closed_at w path bs q (stdout w ++ [NumTriangles (count bs)])).
Proof.
  intros Hf H84 Hn Hlen.
  assert (Hr : ~ readable bs) by (unfold readable; lia).
  destruct (get_info_fails w path bs Hf Hr) as [p Ep].
  destruct (analyze_file_fails w path bs Hf Hr) as [q Eq].
  exists p, q. split; [exact Ep|].
  rewrite analyze_stl_argv, Eq.
  destruct (Nat.leb_spec 84 (length bs)); [reflexivity|lia].
Qed.

Lemma C3_witness :
  fst (get_info "a.stl" (single_file "a.stl" (take 131 stl_one))) = Raise StructError /\
  stdout (snd (analyze_stl ["analyze_stl.py"; "a.stl"]
                 (single_file "a.stl" (take 131 stl_one))))
  = [NumTriangles 1].
Proof.
  destruct (C3_truncated_fails (single_file "a.stl" (take 131 stl_one))
              "analyze_stl.py" "a.stl" (take 131 stl_one))
    as (p & q & Hg & Ha).
  - reflexivity.
  - vm_compute. lia.
  - vm_compute. lia.
  - vm_compute. lia.
  - rewrite Hg, Ha. split; reflexivity.
Defined.

(** C4 as stated fails: on a file of exactly 84 bytes whose count field
    holds 1, [get_info] reports no count, and [analyze_stl.py] reports the
    count 1 and then consumes no record: both stop at position 84 with a
    struct error. *)
Lemma C4_counterexample :
  84 <= length (take 84 stl_one) /\ count (take 84 stl_one) = 1%Z /\
  get_info "a.stl" (single_file "a.stl" (take 84 stl_one))
  = (Raise StructError,
     closed_at (single_file "a.stl" (take 84 stl_one)) "a.stl" (take 84 stl_one) 84 []) /\
  analyze_stl ["analyze_stl.py"; "a.stl"] (single_file "a.stl" (take 84 stl_one))
  = (Raise StructError,
     closed_at (single_file "a.stl" (take 84 stl_one)) "a.stl" (take 84 stl_one) 84
       [NumTriangles 1]).
Proof.
  split; [vm_compute; lia|]. repeat split; vm_compute; reflexivity.
Qed.

(** C4, amended.  For every input file of at least 84 bytes the count is
    the unsigned little-endian value of bytes 80..83, and it is the count
    [analyze_stl.py] prints; when the file holds all its records in full
    (at least 84 + 50 N bytes), both scripts report that count and have
    consumed exactly N records of 50 bytes: the file object ends at position
    84 + 50 N. *)
Theorem C4_count_and_records (w : world) (prog path : string) (bs : list byte) :
  has_file w path bs -> 84 <= length bs ->
  (exists b0 b1 b2 b3,
      bs !! 80 = Some b0 /\ bs !! 81 = Some b1 /\ bs !! 82 = Some b2 /\ bs !! 83 = Some b3 /\
      count bs = (Z.of_N (Byte.to_N b0) + 256 * Z.of_N (Byte.to_N b1)
                  + 65536 * Z.of_N (Byte.to_N b2)
                  + 16777216 * Z.of_N (Byte.to_N b3))%Z) /\
  (0 <= count bs < 2 ^ 32)%Z /\
  (exists rest,
      stdout (snd (analyze_stl [prog; path] w))
      = stdout w ++ NumTriangles (count bs) :: rest) /\
  (well_formed bs ->
   analyze_stl [prog; path] w
   = (Ok tt, closed_at w path bs (84 + 50 * ntriangles bs)
               (stdout w ++ NumTriangles (count bs)
                  :: bbox_lines (extrema_after (vertices bs)))) /\
   get_info path w
   = (Ok tt, closed_at w path bs (84 + 50 * ntriangles bs)
               (stdout w ++ summary_lines path (count bs) (extrema_after (vertices bs))))).
Proof.
  intros Hf H84. split; [|split; [apply count_bound|split]].
  - destruct (lookup_lt_is_Some_2 bs 80) as [b0 E0]; [lia|].
    destruct (lookup_lt_is_Some_2 bs 81) as [b1 E1]; [lia|].
    destruct (lookup_lt_is_Some_2 bs 82) as [b2 E2]; [lia|].
    destruct (lookup_lt_is_Some_2 bs 83) as [b3 E3]; [lia|].
    exists b0, b1, b2, b3. repeat (split; [assumption|]).
    apply count_bytes; assumption.
  - rewrite analyze_stl_argv. destruct (readable_dec bs) as [Hr|Hr].
    + rewrite (analyze_file_ok w path bs Hf Hr). eexists. reflexivity.
    + destruct (analyze_file_fails w path bs Hf Hr) as [p E]. rewrite E. unfold closed_at. cbn [snd stdout].
      destruct (Nat.leb_spec 84 (length bs)); [|lia]. exists []. reflexivity.
  - intros Hwf.
    assert (Hp : 84 + Nat.min (50 * ntriangles bs) (length bs - 84) = 84 + 50 * ntriangles bs)
      by (unfold well_formed in Hwf; lia).
    rewrite analyze_stl_argv, (analyze_file_ok w path bs Hf), (get_info_ok w path bs Hf)
      by apply well_formed_readable, Hwf.
    rewrite Hp. split; reflexivity.
Qed.

Lemma C4_witness :
  stdout (snd (get_info "a.stl" (single_file "a.stl" stl_one)))
  = summary_lines "a.stl" 1 (extrema_after (vertices stl_one)) /\
  map pos (handles (snd (get_info "a.stl" (single_file "a.stl" stl_one)))) = [134].
Proof.
  destruct (C4_count_and_records (single_file "a.stl" stl_one)
              "analyze_stl.py" "a.stl" stl_one) as (_ & _ & _ & H).
  - reflexivity.
  - vm_compute. lia.
  - destruct H as [_ Hg]; [unfold well_formed; vm_compute; lia|].
    rewrite Hg. split; reflexivity.
Defined.

(** C5 as stated fails in its order: the scan sorts the listing before it
    walks it.  With a directory listed as b.stl, notes.txt, a.stl the files
    are processed in the order a.stl, b.stl, not in listing order. *)
Lemma C5_counterexample :
  let listing := ["b.stl"; "notes.txt"; "a.stl"] in
  let w := with_output listing
             {[ "output/a.stl" := stl_empty; "output/b.stl" := stl_one ]} in
  fst (check_single_stl ["check_single_stl.py"] w) = Ok tt /\
  opened_since 0 (snd (check_single_stl ["check_single_stl.py"] w))
  = ["output/a.stl"; "output/b.stl"] /\
  map (path_join output_dir) (List.filter is_stl listing)
  = ["output/b.stl"; "output/a.stl"].
Proof. repeat split; vm_compute; reflexivity. Qed.

(** C5, amended.  Run with no file argument on a directory whose listing
    holds N names that end in ".stl" and M that do not, the script selects
    exactly the N names and skips the other M, and it opens the selected
    files in ascending order of their names (the listing is sorted first),
    whatever the listing order.  When every selected file is readable it
    succeeds and has processed all N, in that order.  Otherwise there is a
    first selected file on which [get_info] raises, and the scan stops
    there: the run ends with that exception (an OS error when the file
    cannot be opened, a struct error when it is too short), only the files
    up to that one have been opened, the files after it never are, and the
    lines of the files before it, and no others, have been printed.  (The
    name of the failing file is taken without a NUL character, as every
    name [os.listdir] returns is.) *)
Theorem C5_directory_scan (w : world) (prog : string) (listing : list string) :
  dirs w !! output_dir = Some listing ->
  let selected := List.filter is_stl (sorted listing) in
  let outcome := check_single_stl [prog] w in
  selected ≡ₚ List.filter is_stl listing /\
  StronglySorted str_le selected /\
  ((forall f, In f selected -> entry_ok w f) ->
   fst outcome = Ok tt /\
   opened_since (length (handles w)) (snd outcome)
   = map (path_join output_dir) selected) /\
  (forall pre f0 post,
     selected = pre ++ f0 :: post ->
     (forall f, In f pre -> entry_ok w f) -> ~ entry_ok w f0 ->
     has_nul (path_join output_dir f0) = false ->
     fst outcome = Raise (entry_error w f0) /\
     opened_since (length (handles w)) (snd outcome)
     = map (path_join output_dir) (entries_opened w pre f0) /\
     stdout (snd outcome) = stdout w ++ concat (map (scan_lines w) pre)) /\
  ((forall f, In f selected -> entry_ok w f) \/
   exists pre f0 post,
     selected = pre ++ f0 :: post /\
     (forall f, In f pre -> entry_ok w f) /\ ~ entry_ok w f0) /\
  exists k,
    k <= length selected /\
    opened_since (length (handles w)) (snd outcome)
    = map (path_join output_dir) (take k selected) /\
    (fst outcome = Ok tt -> k = length selected) /\
    ((forall f, In f selected ->
        exists bs, has_file w (path_join output_dir f) bs /\ readable bs) ->
     fst outcome = Ok tt /\ k = length selected).
Proof.
  intros Hd selected outcome.
  split; [apply filter_perm, sorted_perm|].
  split; [apply filter_strongly, sorted_strongly|].
  subst outcome. unfold check_single_stl, bind, listdir. rewrite Hd.
  destruct (scan_trace (sorted listing) w) as (k & new & _ & Hh & Hn & Hk & Hall & Hgood).
  assert (Ho : opened_since (length (handles w))
                 (snd (for_in (sorted listing)
                         (fun f (_ : unit) =>
                            if endswith f ".stl" then get_info (path_join output_dir f)
                            else ret tt) tt w))
               = map (path_join output_dir) (take k selected))
    by (unfold opened_since; rewrite Hh, drop_app_length; exact Hn).
  split; [|split; [|split]].
  - intros H. split; [apply Hgood, H|].
    rewrite Ho, (Hall (Hgood H)). fold selected. rewrite firstn_all. reflexivity.
  - intros pre f0 post Hsel Hpre Hbad _.
    destruct (scan_stops (sorted listing) w pre f0 post Hsel Hpre Hbad)
      as (new' & Hres & Hh' & Hn' & Hout).
    split; [exact Hres|]. split; [|exact Hout].
    unfold opened_since. rewrite Hh', drop_app_length. exact Hn'.
  - apply first_failing_entry.
  - exists k. split; [exact Hk|]. split; [exact Ho|].
    split; [exact Hall|]. intros H. split; [|apply Hall]; apply Hgood, H.
Qed.

Lemma C5_witness :
  opened_since 0
    (snd (check_single_stl ["check_single_stl.py"]
            (with_output ["b.stl"; "notes.txt"; "a.stl"]
               {[ "output/a.stl" := stl_empty; "output/b.stl" := stl_one ]})))
  = ["output/a.stl"; "output/b.stl"].
Proof.
  destruct (C5_directory_scan
              (with_output ["b.stl"; "notes.txt"; "a.stl"]
                 {[ "output/a.stl" := stl_empty; "output/b.stl" := stl_one ]})
              "check_single_stl.py" ["b.stl"; "notes.txt"; "a.stl"])
    as (_ & _ & _ & _ & _ & k & _ & Ho & Hk & _).
  - reflexivity.
  - rewrite Hk in Ho by (vm_compute; reflexivity).
    etransitivity; [exact Ho|vm_compute; reflexivity].
Defined.

(** A scan that meets a truncated file: a.stl announces one triangle and
    lacks it, so the run ends there with a struct error; b.stl and c.stl
    are never opened and nothing is printed. *)
Example scan_stops_at_truncated_file :
  let w := with_output ["c.stl"; "b.stl"; "a.stl"]
             {[ "output/a.stl" := take 100 stl_one; "output/b.stl" := stl_one;
                "output/c.stl" := stl_empty ]} in
  fst (check_single_stl ["check_single_stl.py"] w) = Raise StructError /\
  opened_since 0 (snd (check_single_stl ["check_single_stl.py"] w)) = ["output/a.stl"] /\
  stdout (snd (check_single_stl ["check_single_stl.py"] w)) = [].
Proof. repeat split; vm_compute; reflexivity. Qed.

(** C6. The six running extrema are updated monotonically: after any prefix
    [vs] of the vertex stream, consuming one more vertex [v] leaves each
    minimum less than or equal to its previous value and each maximum
    greater than or equal to its previous value.  [update] is the step of
    [analyze_stl.py]; the step of [get_info] on its two lists computes the
    same values. *)
Theorem C6_extrema_monotone (vs : list (float * float * float)) (v : float * float * float) :
  let s := extrema_after vs in
  let s' := update s v in
  extrema_after (vs ++ [v]) = s' /\
  (forall w, update_lists [v.1.1; v.1.2; v.2] (to_lists s) w = (Ok (to_lists s'), w)) /\
  fle (min_x s') (min_x s) = true /\ fle (min_y s') (min_y s) = true /\
  fle (min_z s') (min_z s) = true /\
  fle (max_x s) (max_x s') = true /\ fle (max_y s) (max_y s') = true /\
  fle (max_z s) (max_z s') = true.
Proof.
  intros s s'. split; [|split].
  - unfold extrema_after. rewrite fold_left_app. reflexivity.
  - intros w. apply update_lists_sim.
  - subst s s'. rewrite extrema_after_axes. destruct v as [[x y] z].
    cbn [update min_x min_y min_z max_x max_y max_z].
    repeat split;
      first [ apply py_min_le_l, fold_min_not_nan; reflexivity
            | apply py_max_ge_l, fold_max_not_nan; reflexivity ].
Qed.

(** C7. The reported count and bounding box do not depend on the ignored
    byte ranges: two well-formed inputs that agree on the count field
    (bytes 80..83) and on the 36 vertex bytes of every record (offsets
    12..47 of each 50-byte record), and differ arbitrarily in the header,
    the normals and the attribute fields, give the same result and the same
    printed lines, in both scripts. *)
Theorem C7_ignored_bytes_do_not_matter
    (w1 w2 : world) (prog path : string) (bs1 bs2 : list byte) :
  has_file w1 path bs1 -> has_file w2 path bs2 -> stdout w1 = stdout w2 ->
  well_formed bs1 -> well_formed bs2 ->
  (forall k, 80 <= k < 84 -> bs1 !! k = bs2 !! k) ->
  (forall i k, i < ntriangles bs1 -> 12 <= k < 48 ->
               bs1 !! (84 + 50 * i + k) = bs2 !! (84 + 50 * i + k)) ->
  (fst (analyze_stl [prog; path] w1) = Ok tt /\
   fst (analyze_stl [prog; path] w2) = Ok tt /\
   stdout (snd (analyze_stl [prog; path] w1))
   = stdout (snd (analyze_stl [prog; path] w2))) /\
  (fst (get_info path w1) = Ok tt /\
   fst (get_info path w2) = Ok tt /\
   stdout (snd (get_info path w1)) = stdout (snd (get_info path w2))).
Proof.
  intros Hf1 Hf2 Hout H1 H2 Hc Hv. rewrite !analyze_stl_argv.
  apply (runs_agree w1 w2 path bs1 bs2); auto using well_formed_readable.
Qed.

Lemma C7_witness :
  stdout (snd (analyze_stl ["analyze_stl.py"; "a.stl"] (single_file "a.stl" stl_one)))
  = stdout (snd (analyze_stl ["analyze_stl.py"; "a.stl"] (single_file "a.stl" stl_one_alt)))
  /\
  stdout (snd (get_info "a.stl" (single_file "a.stl" stl_one)))
  = stdout (snd (get_info "a.stl" (single_file "a.stl" stl_one_alt))).
Proof.
  pose proof (C7_ignored_bytes_do_not_matter
                (single_file "a.stl" stl_one) (single_file "a.stl" stl_one_alt)
                "analyze_stl.py" "a.stl" stl_one stl_one_alt) as H.
  destruct H as [(_ & _ & Ha) (_ & _ & Hg)].
  - reflexivity.
  - reflexivity.
  - reflexivity.
  - unfold well_formed. vm_compute. lia.
  - unfold well_formed. vm_compute. lia.
  - apply (agree_on_range stl_one stl_one_alt 80 4). reflexivity.
  - intros i k Hi Hk. assert (i = 0) as -> by (vm_compute in Hi; lia).
    apply (agree_on_range stl_one stl_one_alt 96 36); [reflexivity|lia].
  - split; assumption.
Defined.

(** C8. For every successful extraction, the size reported for each of the
    axes X, Y and Z is the final maximum minus the final minimum of that
    axis: in the three axis lines of [analyze_stl.py] and in the summary
    line of [get_info]. *)
Theorem C8_size_is_max_minus_min (w w' : world) (prog path : string) :
  (analyze_stl [prog; path] w = (Ok tt, w') ->
   exists bs, has_file w path bs /\
     let s := extrema_after (vertices bs) in
     stdout w' = stdout w ++
       [ NumTriangles (count bs); BoundingBox;
         AxisLine "X" (min_x s) (max_x s) (sub (max_x s) (min_x s));
         AxisLine "Y" (min_y s) (max_y s) (sub (max_y s) (min_y s));
         AxisLine "Z" (min_z s) (max_z s) (sub (max_z s) (min_z s)) ]) /\
  (get_info path w = (Ok tt, w') ->
   exists bs, has_file w path bs /\
     let s := extrema_after (vertices bs) in
     stdout w' = stdout w ++
       [ FileName (basename path);
         Summary (count bs) (sub (max_x s) (min_x s)) (sub (max_y s) (min_y s))
                 (sub (max_z s) (min_z s)) ]).
Proof.
  split; intros H.
  - rewrite analyze_stl_argv in H.
    destruct (analyze_outcome w path) as [[_ E]|(bs & p & out & r & Hf & E & _ & Hr)];
      [rewrite E in H; discriminate|].
    assert (Hok : r = Ok tt) by (rewrite E in H; congruence).
    rewrite (analyze_file_ok w path bs Hf (Hr Hok)) in H.
    injection H as <-. exists bs. split; [assumption|reflexivity].
  - destruct (get_info_outcome w path) as [[_ E]|(bs & p & out & r & Hf & E & _ & Hr)];
      [rewrite E in H; discriminate|].
    assert (Hok : r = Ok tt) by (rewrite E in H; congruence).
    rewrite (get_info_ok w path bs Hf (Hr Hok)) in H.
    injection H as <-. exists bs. split; [assumption|reflexivity].
Qed.

Lemma C8_witness :
  exists bs, has_file (single_file "a.stl" stl_one) "a.stl" bs /\
    stdout (snd (get_info "a.stl" (single_file "a.stl" stl_one)))
    = [ FileName "a.stl";
        Summary (count bs)
          (sub (max_x (extrema_after (vertices bs))) (min_x (extrema_after (vertices bs))))
          (sub (max_y (extrema_after (vertices bs))) (min_y (extrema_after (vertices bs))))
          (sub (max_z (extrema_after (vertices bs))) (min_z (extrema_after (vertices bs)))) ].
Proof.
  destruct (C8_size_is_max_minus_min
              (single_file "a.stl" stl_one)
              (snd (get_info "a.stl" (single_file "a.stl" stl_one)))
              "analyze_stl.py" "a.stl") as [_ H].
  destruct H as (bs & Hf & Hs); [vm_compute; reflexivity|].
  exists bs. split; [exact Hf|exact Hs].
Defined.

(** C9. On every invocation the file object acquired by [open] is closed
    when the [with] block is left, whether the run ends normally or by an
    exception (in particular on truncated input): a run that finds the file
    adds exactly one file object, and that object is closed, whatever the
    result; a run that does not find it adds none.  No run of either script
    leaves a file object open. *)
Theorem C9_file_closed_on_every_path (w : world) (argv : list string) (path : string) :
  all_closed w ->
  (all_closed (snd (analyze_stl argv w)) /\
   all_closed (snd (get_info path w)) /\
   all_closed (snd (check_single_stl argv w))) /\
  (forall bs, has_file w path bs ->
     exists r p out,
       get_info path w = (r, closed_at w path bs p out) /\
       (~ readable bs -> r = Raise StructError)) /\
  (forall prog bs, has_file w path bs ->
     exists r p out,
       analyze_stl [prog; path] w = (r, closed_at w path bs p out) /\
       (~ readable bs -> r = Raise StructError)) /\
  (files w !! path = None ->
     get_info path w = (Raise OSError, w) /\
     forall prog, analyze_stl [prog; path] w = (Raise OSError, w)).
Proof.
  intros H. split; [|split; [|split]].
  - split; [|split].
    + destruct (analyze_stl_with_open argv) as [p ->]. apply analyze_all_closed, H.
    + apply get_info_all_closed, H.
    + apply check_single_stl_all_closed, H.
  - intros bs Hf. destruct (readable_dec bs) as [Hr|Hr].
    + eexists _, _, _. split; [apply get_info_ok; assumption|tauto].
    + destruct (get_info_fails w path bs Hf Hr) as [p E].
      eexists _, _, _. split; [exact E|reflexivity].
  - intros prog bs Hf. rewrite analyze_stl_argv. destruct (readable_dec bs) as [Hr|Hr].
    + eexists _, _, _. split; [apply analyze_file_ok; assumption|tauto].
    + destruct (analyze_file_fails w path bs Hf Hr) as [p E].
      eexists _, _, _. split; [exact E|reflexivity].
  - intros Hf. split; [|intros prog; rewrite analyze_stl_argv];
      apply with_open_missing, Hf.
Qed.

Lemma C9_witness :
  all_closed (snd (get_info "a.stl" (single_file "a.stl" (take 100 stl_one)))) /\
  fst (get_info "a.stl" (single_file "a.stl" (take 100 stl_one))) = Raise StructError.
Proof.
  destruct (C9_file_closed_on_every_path
              (single_file "a.stl" (take 100 stl_one)) ["check_single_stl.py"; "a.stl"] "a.stl")
    as [(_ & Hc & _) _].
  - constructor.
  - split; [exact Hc|vm_compute; reflexivity].
Defined.

(** C10. A file that holds the 84-byte preamble and the normal and vertex
    bytes of all its N records, and is cut inside the attribute field of
    the last record (it lacks one or both of its last 2 bytes), is
    accepted: extraction succeeds and prints the same count and the same
    lines as on the untruncated file, because only the vertex reads and the
    count read are length-checked. *)
Theorem C10_truncated_attribute_accepted
    (w wt : world) (prog path : string) (bs : list byte) (L : nat) :
  has_file w path bs -> has_file wt path (take L bs) -> stdout wt = stdout w ->
  well_formed bs -> 84 <= L -> 82 + 50 * ntriangles bs <= L ->
  (fst (analyze_stl [prog; path] wt) = Ok tt /\
   fst (analyze_stl [prog; path] w) = Ok tt /\
   stdout (snd (analyze_stl [prog; path] wt)) = stdout (snd (analyze_stl [prog; path] w))) /\
  (fst (get_info path wt) = Ok tt /\
   fst (get_info path w) = Ok tt /\
   stdout (snd (get_info path wt)) = stdout (snd (get_info path w))).
Proof.
  intros Hf Hft Hout Hwf H84 HL. rewrite !analyze_stl_argv.
  assert (Hc : forall k, 80 <= k < 84 -> take L bs !! k = bs !! k).
  { intros k Hk. apply lookup_truncated. lia. }
  assert (En : ntriangles (take L bs) = ntriangles bs).
  { unfold ntriangles. f_equal. apply count_agree, Hc. }
  apply (runs_agree wt w path (take L bs) bs); try assumption.
  - unfold readable. rewrite En, length_take. unfold well_formed in Hwf. lia.
  - apply well_formed_readable, Hwf.
  - intros i k Hi Hk. apply lookup_truncated. rewrite En in Hi. lia.
Qed.

Lemma C10_witness :
  length (take 132 stl_one) < 84 + 50 * ntriangles (take 132 stl_one) /\
  fst (get_info "a.stl" (single_file "a.stl" (take 132 stl_one))) = Ok tt /\
  stdout (snd (get_info "a.stl" (single_file "a.stl" (take 132 stl_one))))
  = stdout (snd (get_info "a.stl" (single_file "a.stl" stl_one))).
Proof.
  split; [vm_compute; lia|].
  destruct (C10_truncated_attribute_accepted
              (single_file "a.stl" stl_one) (single_file "a.stl" (take 132 stl_one))
              "analyze_stl.py" "a.stl" stl_one 132) as [_ (H1 & _ & H2)].
  - reflexivity.
  - reflexivity.
  - reflexivity.
  - unfold well_formed. vm_compute. lia.
  - lia.
  - vm_compute. lia.
  - split; assumption.
Defined.

(* ===================================================================== *)
(** * Further properties of the scripts *)
(* ===================================================================== *)

(** ** Extrema of a coordinate stream *)

Section MoreExtrema.

Lemma run_min_not_nan cs : is_nan (run_min cs) = false.
Proof. apply fold_min_not_nan. reflexivity. Qed.

Lemma run_max_not_nan cs : is_nan (run_max cs) = false.
Proof. apply fold_max_not_nan. reflexivity. Qed.

Lemma py_min_nan_r m c : is_nan c = true -> py_min m c = m.
Proof. destruct c; try discriminate. intros _. unfold py_min, flt, SFltb. destruct m; reflexivity. Qed.

Lemma py_max_nan_r m c : is_nan c = true -> py_max m c = m.
Proof. destruct c; try discriminate. intros _. unfold py_max, fgt, SFltb. destruct m; reflexivity. Qed.

Lemma fold_min_filter cs : forall m,
  fold_left py_min cs m = fold_left py_min (List.filter ordered cs) m.
Proof.
  induction cs as [|c cs IH]; intros m; [reflexivity|].
  simpl. unfold ordered at 1. destruct (is_nan c) eqn:E; simpl.
  - rewrite py_min_nan_r by assumption. apply IH.
  - apply IH.
Qed.

Lemma fold_max_filter cs : forall m,
  fold_left py_max cs m = fold_left py_max (List.filter ordered cs) m.
Proof.
  induction cs as [|c cs IH]; intros m; [reflexivity|].
  simpl. unfold ordered at 1. destruct (is_nan c) eqn:E; simpl.
  - rewrite py_max_nan_r by assumption. apply IH.
  - apply IH.
Qed.

Lemma run_min_perm cs1 cs2 : cs1 ≡ₚ cs2 -> feq (run_min cs1) (run_min cs2) = true.
Proof.
  intros Hp.
  assert (H : forall a b, a ≡ₚ b -> fle (run_min a) (run_min b) = true).
  { intros a b Hab. destruct (fold_min_in b inf) as [E|Hin]; fold (run_min b) in *.
    - rewrite E. apply fle_inf, run_min_not_nan.
    - apply fold_min_le_elem; [reflexivity| |apply run_min_not_nan].
      apply list_elem_of_In. rewrite Hab. apply list_elem_of_In, Hin. }
  apply fle_antisym; apply H; [assumption|symmetry; assumption].
Qed.

Lemma run_max_perm cs1 cs2 : cs1 ≡ₚ cs2 -> feq (run_max cs1) (run_max cs2) = true.
Proof.
  intros Hp.
  assert (H : forall a b, a ≡ₚ b -> fle (run_max a) (run_max b) = true).
  { intros a b Hab. destruct (fold_max_in a neg_inf) as [E|Hin]; fold (run_max a) in *.
    - rewrite E. apply neg_inf_fle, run_max_not_nan.
    - apply fold_max_ge_elem; [reflexivity| |apply run_max_not_nan].
      apply list_elem_of_In. rewrite <- Hab. apply list_elem_of_In, Hin. }
  apply fle_antisym; apply H; [assumption|symmetry; assumption].
Qed.
End MoreExtrema.

(** ** The sign of a difference *)

Section Difference.
Local Open Scope Z_scope.

Lemma round_aux_not_negative m e l :
  not_negative (binary_round_aux prec64 emax64 false m e l).
Proof.
  unfold binary_round_aux, not_negative.
  destruct (shr_fexp prec64 emax64 m e l) as [mrs' e'].
  destruct (shr_fexp prec64 emax64 _ e' loc_Exact) as [mrs'' e''].
  destruct (shr_m mrs''); [reflexivity| |reflexivity].
  destruct (e'' <=? emax64 - prec64); reflexivity.
Qed.

Lemma normalize_not_negative d e :
  0 <= d -> not_negative (binary_normalize prec64 emax64 d e false).
Proof.
  intros Hd. destruct d as [|p|p]; [reflexivity| |lia].
  unfold binary_normalize, binary_round.
  destruct (shl_align p e _) as [mz ez]. apply round_aux_not_negative.
Qed.

Lemma shl_align_value m e e' :
  e' <= e -> Zpos (fst (shl_align m e e')) = Zpos m * 2 ^ (e - e').
Proof.
  intros H. unfold shl_align.
  destruct (e' - e) as [|d|d] eqn:E; try lia.
  - replace (e - e') with 0 by lia. simpl. lia.
  - cbn [fst]. change (Pos.iter xO m d) with (shift_pos d m).
    rewrite shift_pos_correct. replace (e - e') with (Zpos d) by lia.
    change (2 ^ Zpos d) with (Z.pow_pos 2 d). lia.
Qed.

(** The mantissa of a canonical binary64 number has at most 53 digits, and
    exactly 53 above the least exponent. *)
Lemma canonical_digits s m e :
  valid_binary prec64 emax64 (S754_finite s m e) = true ->
  Zpos m < 2 ^ 53 /\ -1074 <= e /\ (-1074 < e -> 2 ^ 52 <= Zpos m).
Proof.
  unfold valid_binary, bounded, canonical_mantissa, fexp, emin, prec64, emax64.
  intros H. apply andb_prop in H as [H _]. apply Z.eqb_eq in H.
  rewrite digits2_pos_log2 in H.
  pose proof (Z.log2_spec (Zpos m) eq_refl) as [Hlo Hhi].
  pose proof (Z.log2_nonneg (Zpos m)) as Hn.
  split; [|split].
  - assert (Z.log2 (Zpos m) + 1 <= 53) by lia.
    eapply Z.lt_le_trans; [exact Hhi|]. apply Z.pow_le_mono_r; lia.
  - lia.
  - intros He. assert (Z.log2 (Zpos m) = 52) as E by lia. rewrite E in Hlo. exact Hlo.
Qed.

(** Of two canonical positive numbers, the one with the greater exponent
    has the greater aligned mantissa. *)
Lemma aligned_le m1 e1 m2 e2 s1 s2 :
  valid_binary prec64 emax64 (S754_finite s1 m1 e1) = true ->
  valid_binary prec64 emax64 (S754_finite s2 m2 e2) = true ->
  e1 < e2 \/ (e1 = e2 /\ Zpos m1 <= Zpos m2) ->
  Zpos (fst (shl_align m1 e1 (Z.min e2 e1))) <= Zpos (fst (shl_align m2 e2 (Z.min e2 e1))).
Proof.
  intros H1 H2 H.
  apply canonical_digits in H1 as (Hm1 & He1 & _).
  apply canonical_digits in H2 as (Hm2 & He2 & Hn2).
  rewrite !shl_align_value by lia.
  destruct H as [Hlt|[-> Hle]].
  - rewrite Z.min_r by lia. replace (e1 - e1) with 0 by lia.
    assert (2 ^ 1 <= 2 ^ (e2 - e1)) by (apply Z.pow_le_mono_r; lia).
    specialize (Hn2 ltac:(lia)). change (2 ^ 0) with 1. change (2 ^ 1) with 2 in *.
    change (2 ^ 53) with 9007199254740992 in *. change (2 ^ 52) with 4503599627370496 in *.
    nia.
  - rewrite Z.min_id. replace (e2 - e2) with 0 by lia. simpl. lia.
Qed.

Lemma sub_not_negative x y :
  valid_binary prec64 emax64 x = true -> valid_binary prec64 emax64 y = true ->
  fle y x = true -> not_negative (Float.sub x y).
Proof.
  intros Hx Hy Hle.
  destruct x as [sx|sx| |sx mx ex], y as [sy|sy| |sy my ey];
    try (destruct sx, sy; try discriminate; reflexivity);
    try (destruct sx; try discriminate; reflexivity);
    try (destruct sy; try discriminate; reflexivity);
    try discriminate.
  unfold Float.sub, SFsub.
  apply normalize_not_negative.
  unfold fle, SFleb, SFcompare in Hle.
  change (Pos.compare_cont Eq my mx) with (Pos.compare my mx) in Hle.
  (* with x positive and y negative the difference is a sum *)
  destruct sx, sy; cbn [cond_Zopp]; try discriminate;
    change IntDef.Z.sub with Z.sub; change IntDef.Z.opp with Z.opp.
  - (* both negative: |x| <= |y| *)
    assert (H : ex < ey \/ (ex = ey /\ Zpos mx <= Zpos my)).
    { destruct (Z.compare_spec ey ex); destruct (Pos.compare_spec my mx);
        simpl in Hle; try discriminate; lia. }
    pose proof (aligned_le mx ex my ey true true Hx Hy H) as Ha.
    rewrite (Z.min_comm ex ey).
    apply Z.le_0_sub, Z.opp_le_mono. rewrite !Z.opp_involutive. exact Ha.
  - (* both positive: y <= x *)
    assert (H : ey < ex \/ (ey = ex /\ Zpos my <= Zpos mx)).
    { destruct (Z.compare_spec ey ex); destruct (Pos.compare_spec my mx);
        simpl in Hle; try discriminate; lia. }
    pose proof (aligned_le my ey mx ex false false Hy Hx H) as Ha.
    apply Z.le_0_sub. exact Ha.
Qed.
(** *** A difference is NaN only for equal infinities *)

Lemma shr_1_nonneg mrs : 0 <= shr_m mrs -> 0 <= shr_m (shr_1 mrs).
Proof.
  destruct mrs as [m r s]. cbn [shr_m shr_1].
  destruct m as [|[p|p|]|[p|p|]]; cbn [shr_m]; lia.
Qed.

Lemma iter_shr_1_nonneg (p : positive) : forall mrs,
  0 <= shr_m mrs -> 0 <= shr_m (SpecFloat.iter_pos shr_1 p mrs).
Proof.
  induction p as [p IH|p IH|]; intros mrs H; cbn [SpecFloat.iter_pos].
  - apply IH, IH, shr_1_nonneg, H.
  - apply IH, IH, H.
  - apply shr_1_nonneg, H.
Qed.

Lemma shr_fexp_nonneg m e l :
  0 <= m -> 0 <= shr_m (fst (shr_fexp prec64 emax64 m e l)).
Proof.
  intros H. unfold shr_fexp, shr.
  assert (H0 : 0 <= shr_m (shr_record_of_loc m l)) by (destruct l as [|[]]; exact H).
  destruct (fexp prec64 emax64 (Zdigits2 m + e) - e) as [|p|p]; cbn [fst]; try exact H0.
  apply iter_shr_1_nonneg, H0.
Qed.

Lemma round_nearest_even_nonneg m l : 0 <= m -> 0 <= round_nearest_even m l.
Proof.
  intros H. unfold round_nearest_even.
  destruct l as [|[]]; try destruct (Z.even m); lia.
Qed.

Lemma round_aux_not_nan s m e l :
  0 <= m -> is_nan (binary_round_aux prec64 emax64 s m e l) = false.
Proof.
  intros H. unfold binary_round_aux.
  pose proof (shr_fexp_nonneg m e l H) as H1.
  destruct (shr_fexp prec64 emax64 m e l) as [mrs' e']. cbn [fst] in H1.
  pose proof (shr_fexp_nonneg _ e' loc_Exact
                (round_nearest_even_nonneg _ (loc_of_shr_record mrs') H1)) as H2.
  destruct (shr_fexp prec64 emax64 _ e' loc_Exact) as [mrs'' e'']. cbn [fst] in H2.
  destruct (shr_m mrs'') as [|p|p]; [reflexivity| |lia].
  destruct (e'' <=? emax64 - prec64); reflexivity.
Qed.

Lemma normalize_not_nan d e sz :
  is_nan (binary_normalize prec64 emax64 d e sz) = false.
Proof.
  destruct d as [|p|p]; [reflexivity| |];
    unfold binary_normalize, binary_round;
    destruct (shl_align p e _) as [mz ez]; apply round_aux_not_nan; lia.
Qed.

(** The difference of two floats that are not NaN is NaN exactly when both
    are the same infinity. *)
Lemma sub_nan_iff x y :
  is_nan x = false -> is_nan y = false ->
  (is_nan (Float.sub x y) = true <-> same_infinity y x).
Proof.
  intros Hx Hy. unfold same_infinity, inf, neg_inf.
  destruct x as [sx|sx| |sx mx ex], y as [sy|sy| |sy my ey]; try discriminate.
  9:{ unfold Float.sub, SFsub. rewrite normalize_not_nan.
       split; [discriminate|intros [[A B]|[A B]]; discriminate]. }
  all: try destruct sx; try destruct sy; unfold Float.sub; cbn [SFsub is_nan negb];
    (split;
     [ intros H; first [discriminate H | left; split; reflexivity | right; split; reflexivity]
     | intros [[A B]|[A B]]; first [discriminate A | discriminate B | reflexivity] ]).
Qed.
End Difference.

Section DecodedValues.

Lemma vertex_of_valid (c : list byte) :
  valid_binary prec64 emax64 (vertex_of c).1.1 = true /\
  valid_binary prec64 emax64 (vertex_of c).1.2 = true /\
  valid_binary prec64 emax64 (vertex_of c).2 = true.
Proof. unfold vertex_of. cbn [fst snd]. repeat split; apply unpack_f_valid_binary. Qed.

Lemma vertices_valid (bs : list byte) :
  Forall (fun c => valid_binary prec64 emax64 c = true) (xs (vertices bs)) /\
  Forall (fun c => valid_binary prec64 emax64 c = true) (ys (vertices bs)) /\
  Forall (fun c => valid_binary prec64 emax64 c = true) (zs (vertices bs)).
Proof.
  unfold xs, ys, zs, vertices. rewrite !List.map_map.
  split; [|split]; apply List.Forall_map, List.Forall_forall; intros c _;
    cbv beta; destruct (vertex_of_valid c) as (Hx & Hy & Hz); assumption.
Qed.

Lemma run_min_valid cs :
  Forall (fun c => valid_binary prec64 emax64 c = true) cs ->
  valid_binary prec64 emax64 (run_min cs) = true.
Proof.
  intros H. destruct (fold_min_in cs inf) as [E|Hin]; fold (run_min cs) in *.
  - rewrite E. reflexivity.
  - rewrite List.Forall_forall in H. apply H, Hin.
Qed.

Lemma run_max_valid cs :
  Forall (fun c => valid_binary prec64 emax64 c = true) cs ->
  valid_binary prec64 emax64 (run_max cs) = true.
Proof.
  intros H. destruct (fold_max_in cs neg_inf) as [E|Hin]; fold (run_max cs) in *.
  - rewrite E. reflexivity.
  - rewrite List.Forall_forall in H. apply H, Hin.
Qed.

Lemma size_not_negative cs :
  Forall (fun c => valid_binary prec64 emax64 c = true) cs ->
  Exists (fun c => is_nan c = false) cs ->
  not_negative (sub (run_max cs) (run_min cs)).
Proof.
  intros Hv He. apply sub_not_negative.
  - apply run_max_valid, Hv.
  - apply run_min_valid, Hv.
  - apply run_min_le_max, He.
Qed.
End DecodedValues.

(** ** The directory table is not consulted by the file operations *)

Section DirsBlind.

Lemma blind_ret {A} (a : A) : dirs_blind (ret a).
Proof. intros ds w. reflexivity. Qed.

Lemma blind_lift {A} (r : result A) : dirs_blind (lift r).
Proof. intros ds w. reflexivity. Qed.

Lemma blind_print l : dirs_blind (print l).
Proof. intros ds w. reflexivity. Qed.

Lemma blind_read fd k : dirs_blind (read fd k).
Proof.
  intros ds w. unfold read, set_dirs. simpl.
  destruct (handles w !! fd) as [f|]; [|reflexivity].
  destruct (closed f); reflexivity.
Qed.

Lemma blind_bind {A B} (m : M A) (k : A -> M B) :
  dirs_blind m -> (forall a, dirs_blind (k a)) -> dirs_blind (bind m k).
Proof.
  intros Hm Hk ds w. unfold bind. rewrite Hm.
  destruct (m w) as [[a|e] w1]; simpl; [apply Hk|reflexivity].
Qed.

Lemma blind_for_in {I S} (xs : list I) (body : I -> S -> M S) :
  (forall i s, dirs_blind (body i s)) -> forall s, dirs_blind (for_in xs body s).
Proof.
  intros Hb. induction xs as [|x xs IH]; intros s; cbn [for_in].
  - apply blind_ret.
  - apply blind_bind; [apply Hb|apply IH].
Qed.

Lemma blind_with_open {A} path (body : nat -> M A) :
  (forall fd, dirs_blind (body fd)) -> dirs_blind (with_open path body).
Proof.
  intros Hb ds w. unfold with_open, open_rb. simpl.
  destruct (files w !! path) as [bs|]; [|reflexivity].
  change (set_handles (handles w ++ [mkFile path bs 0 false]) (set_dirs ds w))
    with (set_dirs ds (set_handles (handles w ++ [mkFile path bs 0 false]) w)).
  rewrite Hb.
  destruct (body (length (handles w)) _) as [r w2]. simpl.
  unfold close, set_dirs. simpl.
  destruct (handles w2 !! length (handles w)); reflexivity.
Qed.

Lemma blind_getitem {A} (l : list A) i : dirs_blind (getitem l i).
Proof. unfold getitem. destruct (l !! i); intros ds w; reflexivity. Qed.

Lemma blind_setitem {A} (l : list A) i v : dirs_blind (setitem l i v).
Proof. unfold setitem. destruct (i <? length l); intros ds w; reflexivity. Qed.

Lemma blind_update_lists v mm : dirs_blind (update_lists v mm).
Proof.
  unfold update_lists. apply blind_for_in. intros i [mins maxs].
  repeat (apply blind_bind; [first [apply blind_getitem | apply blind_setitem]|intros ?]).
  apply blind_ret.
Qed.

Lemma blind_read_triangle_lists fd mm : dirs_blind (read_triangle_lists fd mm).
Proof.
  unfold read_triangle_lists, read_vertices_lists.
  apply blind_bind; [apply blind_read|intros _].
  apply blind_bind.
  - apply blind_for_in. intros _ mm'.
    apply blind_bind; [apply blind_read|intros b].
    apply blind_bind; [apply blind_lift|intros v]. apply blind_update_lists.
  - intros mm'. apply blind_bind; [apply blind_read|intros _]. apply blind_ret.
Qed.

Lemma blind_get_info path : dirs_blind (get_info path).
Proof.
  unfold get_info. apply blind_with_open. intros fd. unfold get_info_block.
  apply blind_bind; [apply blind_read|intros _].
  apply blind_bind; [apply blind_read|intros b].
  apply blind_bind; [apply blind_lift|intros n].
  apply blind_bind; [apply blind_for_in; intros; apply blind_read_triangle_lists|].
  intros [mins maxs].
  repeat (apply blind_bind; [first [apply blind_getitem | apply blind_print]|intros ?]).
  apply blind_print.
Qed.

Lemma blind_scan (l : list string) :
  dirs_blind (for_in l (fun f (_ : unit) =>
                if endswith f ".stl" then get_info (path_join output_dir f)
                else ret tt) tt).
Proof.
  apply blind_for_in. intros f _.
  destruct (endswith f ".stl"); [apply blind_get_info|apply blind_ret].
Qed.
End DirsBlind.

(** ** The output of the directory scan *)

Section ScanOutput.

Local Abbreviation scan_body :=
  (fun f (_ : unit) =>
     if endswith f ".stl" then get_info (path_join output_dir f) else ret tt).

Lemma scan_output (l : list string) : forall w,
  (forall f, In f (List.filter is_stl l) ->
     exists bs, has_file w (path_join output_dir f) bs /\ readable bs) ->
  fst (for_in l scan_body tt w) = Ok tt /\
  files (snd (for_in l scan_body tt w)) = files w /\
  dirs (snd (for_in l scan_body tt w)) = dirs w /\
  stdout (snd (for_in l scan_body tt w))
  = stdout w ++ concat (map (scan_lines w) (List.filter is_stl l)).
Proof.
  induction l as [|f l IH]; intros w H.
  - simpl. rewrite app_nil_r. repeat split.
  - cbn [for_in List.filter]. unfold bind. change (is_stl f) with (endswith f ".stl") in *.
    cbn [List.filter] in H. change (is_stl f) with (endswith f ".stl") in H.
    destruct (endswith f ".stl") eqn:Ef.
    + destruct (H f (or_introl eq_refl)) as (bs & Hf & Hr).
      rewrite (get_info_ok w _ bs Hf Hr).
      destruct (IH (closed_at w (path_join output_dir f) bs
                      (84 + Nat.min (50 * ntriangles bs) (length bs - 84))
                      (stdout w ++ summary_lines (path_join output_dir f) (count bs)
                                     (extrema_after (vertices bs)))))
        as (Hok & Hfs & Hds & Hout).
      { intros g Hg. apply (H g). right. exact Hg. }
      split; [exact Hok|]. split; [exact Hfs|]. split; [exact Hds|].
      rewrite Hout. cbn [stdout closed_at map concat].
      rewrite <- app_assoc. f_equal. f_equal.
      unfold scan_lines at 1. unfold has_file in Hf. rewrite Hf. reflexivity.
    + unfold ret at 1. apply IH. exact H.
Qed.

Lemma scan_nothing (l : list string) : forall w,
  Forall (fun f => is_stl f = false) l -> for_in l scan_body tt w = (Ok tt, w).
Proof.
  induction l as [|f l IH]; intros w H; [reflexivity|].
  apply Forall_cons in H as [Hf H].
  cbn [for_in]. unfold bind. change (endswith f ".stl") with (is_stl f). rewrite Hf.
  unfold ret at 1. apply IH, H.
Qed.

Lemma no_slash_prefix (f : string) : has_slash f = false -> startswith f "/" = false.
Proof.
  destruct f as [|c f]; [reflexivity|]. cbn [has_slash].
  intros H. apply orb_false_elim in H as [Hc _].
  unfold startswith. cbn [String.prefix].
  destruct (Ascii.ascii_dec "/" c) as [<-|]; [discriminate|reflexivity].
Qed.

Lemma basename_after_slash (d f : string) :
  has_slash f = false -> basename (String.append d (String "/" f)) = f.
Proof.
  intros H. induction d as [|c d IH].
  - change (basename (String "/" f) = f). cbn [basename]. rewrite H. reflexivity.
  - change (basename (String c (String.append d (String "/" f))) = f). cbn [basename].
    assert (E : has_slash (String.append d (String "/" f)) = true).
    { clear IH. induction d as [|c' d IHd].
      - reflexivity.
      - change (has_slash (String c' (String.append d (String "/" f))) = true).
        cbn [has_slash]. rewrite IHd. apply orb_true_r. }
    rewrite E. exact IH.
Qed.

(** The name printed for an entry of the directory is the entry itself. *)
Lemma basename_of_entry (f : string) :
  has_slash f = false -> basename (path_join output_dir f) = f.
Proof.
  intros H. unfold path_join. rewrite (no_slash_prefix f H).
  change (String.eqb output_dir "" || endswith output_dir "/") with false.
  cbv iota. apply basename_after_slash, H.
Qed.
End ScanOutput.

(** ** Names that end in ".stl" *)

Section Suffix.

Lemma substring_all (p : string) : String.substring 0 (String.length p) p = p.
Proof. induction p as [|c p IH]; [reflexivity|]. cbn [String.length String.substring]. rewrite IH. reflexivity. Qed.

Lemma substring_skip (q p : string) (m : nat) :
  String.substring (String.length q) m (String.append q p) = String.substring 0 m p.
Proof.
  induction q as [|c q IH]; [reflexivity|].
  change (String.append (String c q) p) with (String c (String.append q p)).
  cbn [String.length String.substring]. exact IH.
Qed.

Lemma length_append (q p : string) :
  String.length (String.append q p) = String.length q + String.length p.
Proof.
  induction q as [|c q IH]; [reflexivity|].
  change (String.append (String c q) p) with (String c (String.append q p)).
  cbn [String.length]. rewrite IH. reflexivity.
Qed.

Lemma split_at (n : nat) : forall s : string,
  n <= String.length s ->
  s = String.append (String.substring 0 n s) (String.substring n (String.length s - n) s).
Proof.
  induction n as [|n IH]; intros s Hn.
  - rewrite Nat.sub_0_r, substring_all.
    destruct s; reflexivity.
  - destruct s as [|c s]; [simpl in Hn; lia|].
    cbn [String.length String.substring] in *.
    change (String.append (String c ?a) ?b) with (String c (String.append a b)).
    rewrite <- IH by lia. reflexivity.
Qed.

(** [s.endswith(p)] holds exactly when [s] is some string followed by [p]. *)
Lemma endswith_spec (s p : string) :
  endswith s p = true <-> exists q, s = String.append q p.
Proof.
  unfold endswith. rewrite andb_true_iff, Nat.leb_le, String.eqb_eq. split.
  - intros [Hlen E].
    exists (String.substring 0 (String.length s - String.length p) s).
    pose proof (split_at (String.length s - String.length p) s ltac:(lia)) as Hs.
    replace (String.length s - (String.length s - String.length p))
      with (String.length p) in Hs by lia.
    rewrite E in Hs. exact Hs.
  - intros [q ->]. rewrite length_append. split; [lia|].
    replace (String.length q + String.length p - String.length p)
      with (String.length q) by lia.
    rewrite substring_skip. apply substring_all.
Qed.
End Suffix.

(** [has_nul] finds a NUL character wherever it stands; the paths of the
    examples hold none. *)
Example has_nul_examples :
  has_nul (String Ascii.zero "a.stl") = true /\
  has_nul (String "a" (String Ascii.zero "")) = true /\
  has_nul "output/a.stl" = false.
Proof. repeat split. Qed.

(** ** Exact widening *)

Section Widening.
Local Open Scope Z_scope.

(** Widening shifts the mantissa to 53 digits and lowers the exponent by
    the same amount: nothing is rounded. *)
Lemma binary_round_exact s m e :
  Zpos (digits2_pos m) <= 24 -> -149 <= e <= 104 ->
  binary_round prec64 emax64 s m e
  = S754_finite s (Pos.iter xO m (Z.to_pos (53 - Zpos (digits2_pos m))))
                (e - (53 - Zpos (digits2_pos m))).
Proof.
  intros Hm He. unfold binary_round, shl_align, fexp, emin, prec64, emax64.
  assert (Hd : 1 <= Zpos (digits2_pos m)) by lia.
  rewrite Z.max_l by lia.
  destruct (Z.pos (digits2_pos m) + e - 53 - e) as [|d|d] eqn:Ed; try lia.
  assert (Ed' : Z.to_pos (53 - Zpos (digits2_pos m)) = d) by lia.
  rewrite Ed'.
  unfold binary_round_aux, shr_fexp, fexp, emin. cbn [Zdigits2 shr_record_of_loc].
  rewrite digits2_pos_iter.
  replace (Z.max (Z.pos (digits2_pos m) + Z.pos d + (Z.pos (digits2_pos m) + e - 53) - 53)
                 (3 - 1024 - 53) - (Z.pos (digits2_pos m) + e - 53)) with 0 by lia.
  cbn [shr loc_of_shr_record shr_m round_nearest_even Zdigits2 shr_record_of_loc].
  rewrite digits2_pos_iter.
  replace (Z.max (Z.pos (digits2_pos m) + Z.pos d + (Z.pos (digits2_pos m) + e - 53) - 53)
                 (3 - 1024 - 53) - (Z.pos (digits2_pos m) + e - 53)) with 0 by lia.
  cbn [shr shr_m].
  destruct (Z.leb_spec (Z.pos (digits2_pos m) + e - 53) (1024 - 53)); [|lia].
  f_equal. lia.
Qed.

Lemma of_bits32_range (w : Z) s m e :
  of_bits32 w = S754_finite s m e -> Zpos (digits2_pos m) <= 24 /\ -149 <= e <= 104.
Proof.
  unfold of_bits32.
  change 255 with (Z.ones 8). rewrite !Z.land_ones by lia.
  pose proof (Z.mod_pos_bound (Z.shiftr w 23) (2 ^ 8) eq_refl) as He.
  pose proof (Z.mod_pos_bound w (2 ^ 23) eq_refl) as Hm.
  change (2 ^ 8) with 256 in *. change (Z.ones 8) with 255.
  destruct (Z.eqb_spec (Z.shiftr w 23 mod 256) 255) as [E255|E255].
  { destruct (w mod 2 ^ 23 =? 0); discriminate. }
  destruct (Z.eqb_spec (Z.shiftr w 23 mod 256) 0) as [E0|E0].
  - destruct (w mod 2 ^ 23) as [|p|p] eqn:Ep; try discriminate.
    intros [= <- <- <-]. split; [|lia].
    rewrite digits2_pos_log2.
    assert (Z.log2 (Z.pos p) < 23) by (apply Z.log2_lt_pow2; lia). lia.
  - destruct (Z.lor (w mod 2 ^ 23) (Z.shiftl 1 23)) as [|p|p] eqn:Ep; try discriminate.
    intros [= <- <- <-]. split; [|lia].
    rewrite digits2_pos_log2, <- Ep, Z.log2_lor by (try apply Z.shiftl_nonneg; lia).
    assert (Z.log2 (w mod 2 ^ 23) <= 23).
    { destruct (Z.eq_dec (w mod 2 ^ 23) 0) as [->|]; [simpl; lia|].
      assert (Z.log2 (w mod 2 ^ 23) < 23) by (apply Z.log2_lt_pow2; lia). lia. }
    change (Z.log2 (Z.shiftl 1 23)) with 23. lia.
Qed.
End Widening.

(** ** The bounding box *)

(** X1. The reported box encloses the geometry: after a successful run,
    every vertex coordinate of the file that is not NaN lies between the
    minimum and the maximum reported for its axis. *)
Theorem X1_box_encloses_vertices (w : world) (prog path : string) (bs : list byte) :
  has_file w path bs -> readable bs ->
  let s := extrema_after (vertices bs) in
  stdout (snd (analyze_stl [prog; path] w))
  = stdout w ++ NumTriangles (count bs) :: bbox_lines s /\
  stdout (snd (get_info path w)) = stdout w ++ summary_lines path (count bs) s /\
  forall x y z, In (x, y, z) (vertices bs) ->
    (is_nan x = false -> fle (min_x s) x = true /\ fle x (max_x s) = true) /\
    (is_nan y = false -> fle (min_y s) y = true /\ fle y (max_y s) = true) /\
    (is_nan z = false -> fle (min_z s) z = true /\ fle z (max_z s) = true).
Proof.
  intros Hf Hr s. split; [|split].
  - rewrite analyze_stl_argv, (analyze_file_ok w path bs Hf Hr). reflexivity.
  - rewrite (get_info_ok w path bs Hf Hr). reflexivity.
  - intros x y z Hin. subst s. rewrite extrema_after_axes.
    cbn [min_x min_y min_z max_x max_y max_z].
    assert (Hx : In x (xs (vertices bs))) by (apply (List.in_map (fun v => v.1.1) _ _ Hin)).
    assert (Hy : In y (ys (vertices bs))) by (apply (List.in_map (fun v => v.1.2) _ _ Hin)).
    assert (Hz : In z (zs (vertices bs))) by (apply (List.in_map (fun v => v.2) _ _ Hin)).
    repeat split;
      first [ apply fold_min_le_elem; [reflexivity|assumption..]
            | apply fold_max_ge_elem; [reflexivity|assumption..] ].
Qed.

Lemma X1_witness :
  fle (min_x (extrema_after (vertices stl_one))) (unpack_f f32_two) = true /\
  fle (unpack_f f32_two) (max_x (extrema_after (vertices stl_one))) = true.
Proof.
  destruct (X1_box_encloses_vertices (single_file "a.stl" stl_one)
              "analyze_stl.py" "a.stl" stl_one) as (_ & _ & H).
  - reflexivity.
  - unfold readable. vm_compute. lia.
  - destruct (H (unpack_f f32_two) (unpack_f f32_one) (unpack_f f32_one)) as (Hx & _).
    + right. left. reflexivity.
    + apply Hx. reflexivity.
Defined.

(** X2. The reported extrema are never NaN, and each one is attained: a
    minimum is the initial +infinity or, bit for bit, a coordinate of some
    vertex of the stream on its axis; a maximum is the initial -infinity or
    such a coordinate. *)
Theorem X2_extrema_attained (vs : list (float * float * float)) :
  let s := extrema_after vs in
  (is_nan (min_x s) = false /\ (min_x s = inf \/ In (min_x s) (xs vs))) /\
  (is_nan (min_y s) = false /\ (min_y s = inf \/ In (min_y s) (ys vs))) /\
  (is_nan (min_z s) = false /\ (min_z s = inf \/ In (min_z s) (zs vs))) /\
  (is_nan (max_x s) = false /\ (max_x s = neg_inf \/ In (max_x s) (xs vs))) /\
  (is_nan (max_y s) = false /\ (max_y s = neg_inf \/ In (max_y s) (ys vs))) /\
  (is_nan (max_z s) = false /\ (max_z s = neg_inf \/ In (max_z s) (zs vs))).
Proof.
  intros s. subst s. rewrite extrema_after_axes.
  cbn [min_x min_y min_z max_x max_y max_z].
  repeat split;
    first [ apply run_min_not_nan | apply run_max_not_nan
          | apply fold_min_in | apply fold_max_in ].
Qed.

(** X3. NaN coordinates have no effect on the box: on each axis the
    extrema of a vertex stream are those of its coordinates that are not
    NaN (a vertex with a NaN on one axis still counts on the others). *)
Theorem X3_nan_coordinates_ignored (vs : list (float * float * float)) :
  extrema_after vs
  = mkExtrema (run_min (List.filter ordered (xs vs)))
              (run_min (List.filter ordered (ys vs)))
              (run_min (List.filter ordered (zs vs)))
              (run_max (List.filter ordered (xs vs)))
              (run_max (List.filter ordered (ys vs)))
              (run_max (List.filter ordered (zs vs))).
Proof.
  rewrite extrema_after_axes. unfold run_min, run_max.
  rewrite <- !fold_min_filter, <- !fold_max_filter. reflexivity.
Qed.

(** X4. The box does not depend on the order of the vertices: two streams
    that are permutations of each other give extrema that are equal under
    float equality ([==]) on every axis. *)
Theorem X4_box_order_independent (vs1 vs2 : list (float * float * float)) :
  vs1 ≡ₚ vs2 ->
  let s1 := extrema_after vs1 in
  let s2 := extrema_after vs2 in
  feq (min_x s1) (min_x s2) = true /\ feq (max_x s1) (max_x s2) = true /\
  feq (min_y s1) (min_y s2) = true /\ feq (max_y s1) (max_y s2) = true /\
  feq (min_z s1) (min_z s2) = true /\ feq (max_z s1) (max_z s2) = true.
Proof.
  intros Hp s1 s2. subst s1 s2. rewrite !extrema_after_axes.
  cbn [min_x min_y min_z max_x max_y max_z].
  assert (Hx : xs vs1 ≡ₚ xs vs2) by (apply Permutation_map, Hp).
  assert (Hy : ys vs1 ≡ₚ ys vs2) by (apply Permutation_map, Hp).
  assert (Hz : zs vs1 ≡ₚ zs vs2) by (apply Permutation_map, Hp).
  repeat split; first [apply run_min_perm; assumption | apply run_max_perm; assumption].
Qed.

Lemma X4_witness :
  feq (min_x (extrema_after [(S754_zero false, inf, inf); (S754_zero true, inf, inf)]))
      (min_x (extrema_after [(S754_zero true, inf, inf); (S754_zero false, inf, inf)]))
  = true.
Proof.
  destruct (X4_box_order_independent
              [(S754_zero false, inf, inf); (S754_zero true, inf, inf)]
              [(S754_zero true, inf, inf); (S754_zero false, inf, inf)]) as (H & _).
  - apply perm_swap.
  - exact H.
Defined.

(** ** Success and failure of a run *)

(** X5. Exact success criterion, for a path that holds no NUL character
    (the builtin [open] refuses a path with one by a [ValueError], which
    [open_rb] does not model).  Either script succeeds on such a path
    exactly when the file exists, holds at least 84 bytes and, for a count
    N >= 1, at least 82 + 50 N bytes; a path that names no file raises an
    OS error and any other file a struct error, so a run never ends with an
    index or a value error.  The two scripts always end with the same
    result. *)
Theorem X5_success_criterion (w : world) (prog path : string) :
  has_nul path = false ->
  (fst (get_info path w) = Ok tt <-> exists bs, has_file w path bs /\ readable bs) /\
  (fst (analyze_stl [prog; path] w) = Ok tt <-> exists bs, has_file w path bs /\ readable bs) /\
  (fst (get_info path w) = Raise OSError <-> files w !! path = None) /\
  (fst (get_info path w) = Raise StructError <->
   exists bs, has_file w path bs /\ ~ readable bs) /\
  fst (get_info path w) = fst (analyze_stl [prog; path] w) /\
  fst (get_info path w) <> Raise IndexError /\
  fst (get_info path w) <> Raise ValueError.
Proof.
  intros _. rewrite analyze_stl_argv. unfold has_file.
  destruct (files w !! path) as [bs|] eqn:Hf.
  - destruct (readable_dec bs) as [Hr|Hr].
    + rewrite (get_info_ok w path bs Hf Hr), (analyze_file_ok w path bs Hf Hr). simpl.
      repeat split; try discriminate; eauto.
      intros (bs' & E & Hn). congruence.
    + destruct (get_info_fails w path bs Hf Hr) as [p ->].
      destruct (analyze_file_fails w path bs Hf Hr) as [q ->]. simpl.
      repeat split; try discriminate; eauto.
      * intros (bs' & E & Hr'). congruence.
      * intros (bs' & E & Hr'). congruence.
  - rewrite !with_open_missing by assumption.
    unfold get_info. rewrite with_open_missing by assumption. simpl.
    repeat split; try discriminate; try reflexivity.
    + intros (bs' & E & _). discriminate.
    + intros (bs' & E & _). discriminate.
    + intros (bs' & E & _). discriminate.
Qed.

Lemma X5_witness :
  has_nul "a.stl" = false /\
  fst (get_info "a.stl" (single_file "a.stl" (take 133 stl_one))) = Ok tt.
Proof.
  split; [reflexivity|].
  destruct (X5_success_criterion (single_file "a.stl" (take 133 stl_one))
              "analyze_stl.py" "a.stl") as ((_ & H) & _).
  - reflexivity.
  - apply H. exists (take 133 stl_one). split; [reflexivity|].
    unfold readable. vm_compute. lia.
Defined.

(** X6. A file shorter than 84 bytes (the empty file included) makes both
    scripts fail with a struct error at the count field, before anything is
    printed; the file object is left closed. *)
Theorem X6_short_file (w : world) (prog path : string) (bs : list byte) :
  has_file w path bs -> length bs < 84 ->
  exists p q,
    get_info path w = (Raise StructError, closed_at w path bs p (stdout w)) /\
    analyze_stl [prog; path] w = (Raise StructError, closed_at w path bs q (stdout w)).
Proof.
  intros Hf Hlen.
  assert (Hr : ~ readable bs) by (unfold readable; lia).
  destruct (get_info_fails w path bs Hf Hr) as [p Ep].
  destruct (analyze_file_fails w path bs Hf Hr) as [q Eq].
  exists p, q. split; [exact Ep|].
  rewrite analyze_stl_argv, Eq.
  destruct (Nat.leb_spec 84 (length bs)); [lia|]. rewrite app_nil_r. reflexivity.
Qed.

Lemma X6_witness :
  fst (analyze_stl ["analyze_stl.py"; "a.stl"] (single_file "a.stl" [])) = Raise StructError /\
  stdout (snd (analyze_stl ["analyze_stl.py"; "a.stl"] (single_file "a.stl" []))) = [].
Proof.
  destruct (X6_short_file (single_file "a.stl" []) "analyze_stl.py" "a.stl" [])
    as (p & q & _ & Ha).
  - reflexivity.
  - simpl. lia.
  - rewrite Ha. split; reflexivity.
Defined.

(** X7. Bytes after the last record are never read: a well-formed file
    followed by any trailing bytes gives the same result and the same lines
    as the file alone, and the file object stops at position 84 + 50 N. *)
Theorem X7_trailing_bytes_ignored
    (w w' : world) (prog path : string) (bs extra : list byte) :
  has_file w path bs -> has_file w' path (bs ++ extra) -> stdout w' = stdout w ->
  well_formed bs ->
  analyze_stl [prog; path] w'
  = (Ok tt, closed_at w' path (bs ++ extra) (84 + 50 * ntriangles bs)
              (stdout (snd (analyze_stl [prog; path] w)))) /\
  get_info path w'
  = (Ok tt, closed_at w' path (bs ++ extra) (84 + 50 * ntriangles bs)
              (stdout (snd (get_info path w)))) /\
  fst (analyze_stl [prog; path] w) = Ok tt /\ fst (get_info path w) = Ok tt.
Proof.
  intros Hf Hf' Hout Hwf. unfold well_formed in Hwf.
  assert (Hl : forall k, k < length bs -> (bs ++ extra) !! k = bs !! k)
    by (intros k Hk; apply lookup_app_l, Hk).
  destruct (vertices_agree (bs ++ extra) bs) as [Ec Ev].
  { intros k Hk. apply Hl. lia. }
  { intros i k Hi Hk. apply Hl.
    assert (ntriangles (bs ++ extra) = ntriangles bs) as E
      by (unfold ntriangles; f_equal; apply count_agree; intros j Hj; apply Hl; lia).
    rewrite E in Hi. lia. }
  assert (En : ntriangles (bs ++ extra) = ntriangles bs) by (unfold ntriangles; rewrite Ec; reflexivity).
  assert (Hr : readable bs) by (unfold readable; lia).
  assert (Hr' : readable (bs ++ extra)) by (unfold readable; rewrite En, length_app; lia).
  rewrite !analyze_stl_argv.
  rewrite (analyze_file_ok w' _ _ Hf' Hr'), (analyze_file_ok w _ _ Hf Hr).
  rewrite (get_info_ok w' _ _ Hf' Hr'), (get_info_ok w _ _ Hf Hr).
  rewrite En, Ec, Ev, Hout, length_app. cbn [fst snd stdout closed_at].
  replace (84 + Nat.min (50 * ntriangles bs) (length bs + length extra - 84))
    with (84 + 50 * ntriangles bs) by lia.
  repeat split.
Qed.

Lemma X7_witness :
  map pos (handles (snd (get_info "a.stl" (single_file "a.stl" (stl_one ++ zeros 7))))) = [134] /\
  stdout (snd (get_info "a.stl" (single_file "a.stl" (stl_one ++ zeros 7))))
  = stdout (snd (get_info "a.stl" (single_file "a.stl" stl_one))).
Proof.
  destruct (X7_trailing_bytes_ignored
              (single_file "a.stl" stl_one) (single_file "a.stl" (stl_one ++ zeros 7))
              "analyze_stl.py" "a.stl" stl_one (zeros 7)) as (_ & Hg & _).
  - reflexivity.
  - reflexivity.
  - reflexivity.
  - unfold well_formed. vm_compute. lia.
  - rewrite Hg. split; reflexivity.
Defined.

(** X8. A file of at least 84 bytes whose count field is zero is accepted
    whatever follows the count: nothing beyond byte 83 is read, the
    minima are +infinity, the maxima -infinity, and every size printed is
    -infinity (the difference -inf - +inf). *)
Theorem X8_zero_triangles (w : world) (prog path : string) (bs : list byte) :
  has_file w path bs -> 84 <= length bs -> count bs = 0%Z ->
  analyze_stl [prog; path] w
  = (Ok tt, closed_at w path bs 84
              (stdout w ++
               [ NumTriangles 0; BoundingBox;
                 AxisLine "X" inf neg_inf neg_inf;
                 AxisLine "Y" inf neg_inf neg_inf;
                 AxisLine "Z" inf neg_inf neg_inf ])) /\
  get_info path w
  = (Ok tt, closed_at w path bs 84
              (stdout w ++ [FileName (basename path); Summary 0 neg_inf neg_inf neg_inf])).
Proof.
  intros Hf H84 Hc.
  assert (Hn : ntriangles bs = 0) by (apply ntriangles_0, Hc).
  assert (Hr : readable bs) by (unfold readable; lia).
  rewrite analyze_stl_argv, (analyze_file_ok w path bs Hf Hr), (get_info_ok w path bs Hf Hr).
  unfold vertices. rewrite Hn, Hc. split; reflexivity.
Qed.

Lemma X8_witness :
  stdout (snd (get_info "a.stl" (single_file "a.stl" (stl_empty ++ zeros 3))))
  = [FileName "a.stl"; Summary 0 neg_inf neg_inf neg_inf].
Proof.
  destruct (X8_zero_triangles (single_file "a.stl" (stl_empty ++ zeros 3))
              "analyze_stl.py" "a.stl" (stl_empty ++ zeros 3)) as (_ & Hg).
  - reflexivity.
  - vm_compute. lia.
  - reflexivity.
  - rewrite Hg. reflexivity.
Defined.

(** X9. After a successful run, the size printed for an axis is NaN exactly
    when the two reported extrema of that axis are the same infinity; on an
    axis on which at least one vertex coordinate is not NaN the size is
    never below zero, and it satisfies 0 <= size whenever it is not that
    NaN. *)
Theorem X9_size_not_negative (w : world) (prog path : string) (bs : list byte) :
  has_file w path bs -> readable bs ->
  let s := extrema_after (vertices bs) in
  stdout (snd (analyze_stl [prog; path] w))
  = stdout w ++
    [ NumTriangles (count bs); BoundingBox;
      AxisLine "X" (min_x s) (max_x s) (sub (max_x s) (min_x s));
      AxisLine "Y" (min_y s) (max_y s) (sub (max_y s) (min_y s));
      AxisLine "Z" (min_z s) (max_z s) (sub (max_z s) (min_z s)) ] /\
  stdout (snd (get_info path w))
  = stdout w ++
    [ FileName (basename path);
      Summary (count bs) (sub (max_x s) (min_x s)) (sub (max_y s) (min_y s))
              (sub (max_z s) (min_z s)) ] /\
  (Exists (fun c => is_nan c = false) (xs (vertices bs)) ->
   not_negative (sub (max_x s) (min_x s))) /\
  (Exists (fun c => is_nan c = false) (ys (vertices bs)) ->
   not_negative (sub (max_y s) (min_y s))) /\
  (Exists (fun c => is_nan c = false) (zs (vertices bs)) ->
   not_negative (sub (max_z s) (min_z s))) /\
  (is_nan (sub (max_x s) (min_x s)) = true <-> same_infinity (min_x s) (max_x s)) /\
  (is_nan (sub (max_y s) (min_y s)) = true <-> same_infinity (min_y s) (max_y s)) /\
  (is_nan (sub (max_z s) (min_z s)) = true <-> same_infinity (min_z s) (max_z s)) /\
  (Exists (fun c => is_nan c = false) (xs (vertices bs)) ->
   ~ same_infinity (min_x s) (max_x s) ->
   fle (S754_zero false) (sub (max_x s) (min_x s)) = true) /\
  (Exists (fun c => is_nan c = false) (ys (vertices bs)) ->
   ~ same_infinity (min_y s) (max_y s) ->
   fle (S754_zero false) (sub (max_y s) (min_y s)) = true) /\
  (Exists (fun c => is_nan c = false) (zs (vertices bs)) ->
   ~ same_infinity (min_z s) (max_z s) ->
   fle (S754_zero false) (sub (max_z s) (min_z s)) = true).
Proof.
  intros Hf Hr s. split; [|split].
  - rewrite analyze_stl_argv, (analyze_file_ok w path bs Hf Hr). reflexivity.
  - rewrite (get_info_ok w path bs Hf Hr). reflexivity.
  - subst s. rewrite extrema_after_axes. cbn [min_x min_y min_z max_x max_y max_z].
    destruct (vertices_valid bs) as (Hx & Hy & Hz).
    assert (Hnan : forall cs,
               is_nan (sub (run_max cs) (run_min cs)) = true
               <-> same_infinity (run_min cs) (run_max cs))
      by (intros cs; apply sub_nan_iff; [apply run_max_not_nan|apply run_min_not_nan]).
    assert (Hpos : forall cs,
               Forall (fun c => valid_binary prec64 emax64 c = true) cs ->
               Exists (fun c => is_nan c = false) cs ->
               ~ same_infinity (run_min cs) (run_max cs) ->
               fle (S754_zero false) (sub (run_max cs) (run_min cs)) = true).
    { intros cs Hv He Hs. apply not_flt_fle; [| reflexivity |apply size_not_negative; assumption].
      destruct (is_nan (sub (run_max cs) (run_min cs))) eqn:E; [|reflexivity].
      exfalso. apply Hs, Hnan, E. }
    split; [intros He; apply size_not_negative; assumption|].
    split; [intros He; apply size_not_negative; assumption|].
    split; [intros He; apply size_not_negative; assumption|].
    split; [apply Hnan|]. split; [apply Hnan|]. split; [apply Hnan|].
    split; [apply Hpos, Hx|]. split; [apply Hpos, Hy|apply Hpos, Hz].
Qed.

Lemma X9_witness :
  not_negative (sub (max_x (extrema_after (vertices stl_one)))
                    (min_x (extrema_after (vertices stl_one)))) /\
  fle (S754_zero false)
      (sub (max_x (extrema_after (vertices stl_one)))
           (min_x (extrema_after (vertices stl_one)))) = true.
Proof.
  destruct (X9_size_not_negative (single_file "a.stl" stl_one)
              "analyze_stl.py" "a.stl" stl_one)
    as (_ & _ & Hx & _ & _ & _ & _ & _ & Hp & _).
  - reflexivity.
  - unfold readable. vm_compute. lia.
  - assert (He : Exists (fun c => is_nan c = false) (xs (vertices stl_one)))
      by (apply Exists_cons_hd; vm_compute; reflexivity).
    split; [apply Hx, He|]. apply Hp; [exact He|].
    intros [[A _]|[A _]]; vm_compute in A; discriminate.
Defined.

(** X9 at its limit: with the coordinates of an axis all equal to
    +infinity both extrema are +infinity and the size is NaN. *)
Example size_nan_at_equal_infinities :
  let s := extrema_after [(inf, inf, inf); (inf, inf, inf)] in
  min_x s = inf /\ max_x s = inf /\ sub (max_x s) (min_x s) = S754_nan.
Proof. repeat split. Qed.

(** ** The directory scan *)

(** X10. When every selected file is readable, the scan succeeds and
    prints, for the names ending in ".stl" in ascending order, the two
    lines of [get_info] one file after the other, and nothing for the other
    entries; the name printed is the directory entry itself. *)
Theorem X10_scan_output (w : world) (prog : string) (listing : list string) :
  dirs w !! output_dir = Some listing ->
  let selected := List.filter is_stl (sorted listing) in
  (forall f, In f selected ->
     exists bs, has_file w (path_join output_dir f) bs /\ readable bs) ->
  fst (check_single_stl [prog] w) = Ok tt /\
  stdout (snd (check_single_stl [prog] w))
  = stdout w ++ concat (map (scan_lines w) selected) /\
  (forall f, In f selected -> has_slash f = false ->
     exists bs, has_file w (path_join output_dir f) bs /\
       let s := extrema_after (vertices bs) in
       scan_lines w f
       = [ FileName f;
           Summary (count bs) (sub (max_x s) (min_x s)) (sub (max_y s) (min_y s))
                   (sub (max_z s) (min_z s)) ]).
Proof.
  intros Hd selected H. unfold check_single_stl, bind, listdir. rewrite Hd.
  destruct (scan_output (sorted listing) w H) as (Hok & _ & _ & Hout).
  split; [exact Hok|]. split; [exact Hout|].
  intros f Hin Hs. destruct (H f Hin) as (bs & Hf & _).
  exists bs. split; [exact Hf|]. cbv zeta.
  unfold scan_lines. unfold has_file in Hf. rewrite Hf.
  unfold summary_lines. rewrite (basename_of_entry f Hs). reflexivity.
Qed.

Lemma X10_witness :
  stdout (snd (check_single_stl ["check_single_stl.py"]
                 (with_output ["b.stl"; "notes.txt"; "a.stl"]
                    {[ "output/a.stl" := stl_empty; "output/b.stl" := stl_one ]})))
  = [ FileName "a.stl"; Summary 0 neg_inf neg_inf neg_inf;
      FileName "b.stl";
      Summary 1 (unpack_f [x00; x00; xa0; x40]) (unpack_f [x00; x00; xa0; x40])
                (unpack_f [x00; x00; xa0; x40]) ].
Proof.
  destruct (X10_scan_output
              (with_output ["b.stl"; "notes.txt"; "a.stl"]
                 {[ "output/a.stl" := stl_empty; "output/b.stl" := stl_one ]})
              "check_single_stl.py" ["b.stl"; "notes.txt"; "a.stl"]) as (_ & Hout & _).
  - reflexivity.
  - intros f Hf. vm_compute in Hf. destruct Hf as [<-|[<-|[]]].
    + exists stl_empty. split; [reflexivity|unfold readable; vm_compute; lia].
    + exists stl_one. split; [reflexivity|unfold readable; vm_compute; lia].
  - rewrite Hout. vm_compute. reflexivity.
Defined.

(** X11. The scan does not depend on the order in which the directory is
    listed: two listings of the same entries give the same result, the same
    printed lines and the same sequence of file objects. *)
Theorem X11_listing_order_irrelevant (w : world) (prog : string) (l1 l2 : list string) :
  dirs w !! output_dir = Some l1 -> l2 ≡ₚ l1 ->
  let w2 := set_dirs (<[output_dir := l2]> (dirs w)) w in
  fst (check_single_stl [prog] w2) = fst (check_single_stl [prog] w) /\
  stdout (snd (check_single_stl [prog] w2)) = stdout (snd (check_single_stl [prog] w)) /\
  handles (snd (check_single_stl [prog] w2)) = handles (snd (check_single_stl [prog] w)).
Proof.
  intros Hd Hp w2. subst w2. unfold check_single_stl, bind, listdir.
  rewrite Hd. cbn [dirs set_dirs]. rewrite lookup_insert_eq.
  assert (E : sorted l2 = sorted l1).
  { apply sorted_unique; [|apply sorted_strongly]. rewrite sorted_perm. exact Hp. }
  rewrite E, (blind_scan (sorted l1)). repeat split.
Qed.

Lemma X11_witness :
  stdout (snd (check_single_stl ["check_single_stl.py"]
                 (with_output ["a.stl"; "b.stl"]
                    {[ "output/a.stl" := stl_empty; "output/b.stl" := stl_one ]})))
  = stdout (snd (check_single_stl ["check_single_stl.py"]
                 (with_output ["b.stl"; "a.stl"]
                    {[ "output/a.stl" := stl_empty; "output/b.stl" := stl_one ]}))).
Proof.
  destruct (X11_listing_order_irrelevant
              (with_output ["b.stl"; "a.stl"]
                 {[ "output/a.stl" := stl_empty; "output/b.stl" := stl_one ]})
              "check_single_stl.py" ["b.stl"; "a.stl"] ["a.stl"; "b.stl"]) as (_ & H & _).
  - reflexivity.
  - apply perm_swap.
  - exact H.
Defined.

(** X12. The scan selects exactly the entries of the form q + ".stl"
    (case-sensitive; the bare name ".stl" included).  When the directory
    ["output"] is missing the script raises an OS error at once; when no
    entry is selected it succeeds without opening or printing anything. *)
Theorem X12_scan_selection (w : world) (prog : string) :
  (forall f, is_stl f = true <-> exists q, f = String.append q ".stl") /\
  (dirs w !! output_dir = None -> check_single_stl [prog] w = (Raise OSError, w)) /\
  (forall listing,
     dirs w !! output_dir = Some listing ->
     Forall (fun f => is_stl f = false) listing ->
     check_single_stl [prog] w = (Ok tt, w)).
Proof.
  split; [intros f; apply endswith_spec|]. split.
  - intros Hd. unfold check_single_stl, bind, listdir. rewrite Hd. reflexivity.
  - intros listing Hd H. unfold check_single_stl, bind, listdir. rewrite Hd.
    apply scan_nothing. rewrite sorted_perm. exact H.
Qed.

Lemma X12_witness :
  check_single_stl ["check_single_stl.py"]
    (with_output ["notes.txt"; "a.STL"; "stl"] {[ "output/a.STL" := stl_one ]})
  = (Ok tt, with_output ["notes.txt"; "a.STL"; "stl"] {[ "output/a.STL" := stl_one ]}).
Proof.
  destruct (X12_scan_selection
              (with_output ["notes.txt"; "a.STL"; "stl"] {[ "output/a.STL" := stl_one ]})
              "check_single_stl.py") as (_ & _ & H).
  apply (H ["notes.txt"; "a.STL"; "stl"]); [reflexivity|].
  repeat constructor.
Defined.

(** ** Output on failure, and decoding *)

(** X13. [get_info] prints all or nothing: whenever it does not succeed,
    nothing has been printed.  [analyze_stl.py] prints its count line as
    soon as the count is read, so a failing run has printed nothing or
    that line alone. *)
Theorem X13_output_on_failure (w : world) (prog path : string) :
  (fst (get_info path w) <> Ok tt -> stdout (snd (get_info path w)) = stdout w) /\
  (fst (analyze_stl [prog; path] w) <> Ok tt ->
   stdout (snd (analyze_stl [prog; path] w)) = stdout w \/
   exists bs, has_file w path bs /\ 84 <= length bs /\
     stdout (snd (analyze_stl [prog; path] w)) = stdout w ++ [NumTriangles (count bs)]).
Proof.
  rewrite analyze_stl_argv. split; intros H.
  - destruct (files w !! path) as [bs|] eqn:Hf.
    + destruct (readable_dec bs) as [Hr|Hr].
      * rewrite (get_info_ok w path bs Hf Hr) in H. contradiction.
      * destruct (get_info_fails w path bs Hf Hr) as [p ->]. reflexivity.
    + unfold get_info. rewrite with_open_missing by assumption. reflexivity.
  - destruct (files w !! path) as [bs|] eqn:Hf.
    + destruct (readable_dec bs) as [Hr|Hr].
      * rewrite (analyze_file_ok w path bs Hf Hr) in H. contradiction.
      * destruct (analyze_file_fails w path bs Hf Hr) as [p ->].
        unfold closed_at. cbn [snd stdout].
        destruct (Nat.leb_spec 84 (length bs)).
        -- right. exists bs. repeat split; assumption.
        -- left. apply app_nil_r.
    + rewrite with_open_missing by assumption. left. reflexivity.
Qed.

Lemma X13_witness :
  stdout (snd (get_info "a.stl" (single_file "a.stl" (take 100 stl_one)))) = [].
Proof.
  destruct (X13_output_on_failure (single_file "a.stl" (take 100 stl_one))
              "analyze_stl.py" "a.stl") as (H & _).
  apply H. vm_compute. discriminate.
Defined.

(** X14. A coordinate is decoded without rounding: a finite binary32
    number with mantissa [m] and exponent [e] becomes the binary64 number
    with the same sign, the mantissa shifted left to 53 digits and the
    exponent lowered by the same amount; zeros, infinities and NaN are kept;
    the result is always a canonical binary64 number. *)
Theorem X14_decoding_exact (b : list byte) :
  valid_binary prec64 emax64 (unpack_f b) = true /\
  match of_bits32 (le_to_Z b) with
  | S754_finite s m e =>
      unpack_f b
      = S754_finite s (Pos.iter xO m (Z.to_pos (53 - Zpos (digits2_pos m))))
                    (e - (53 - Zpos (digits2_pos m))) /\
      (Zpos (digits2_pos m) <= 24)%Z
  | x => unpack_f b = x
  end.
Proof.
  split; [apply unpack_f_valid_binary|].
  unfold unpack_f. destruct (of_bits32 (le_to_Z b)) as [s|s| |s m e] eqn:E; try reflexivity.
  destruct (of_bits32_range _ _ _ _ E) as [Hm He].
  split; [|exact Hm]. cbn [widen]. apply binary_round_exact; assumption.
Qed.

(** ** Command-line arguments *)

(** X15. Argument handling.  [check_single_stl.py] with a file argument
    processes that file alone: further arguments are ignored and the
    directory table is never consulted, so the run is the same whether or
    not ["output"] exists.  [analyze_stl.py] without an argument reads the
    default path, and ignores arguments after the first. *)
Theorem X15_arguments (w : world) (prog path : string) (more : list string)
    (ds : gmap string (list string)) :
  fst (check_single_stl (prog :: path :: more) (set_dirs ds w)) = fst (get_info path w) /\
  stdout (snd (check_single_stl (prog :: path :: more) (set_dirs ds w)))
  = stdout (snd (get_info path w)) /\
  handles (snd (check_single_stl (prog :: path :: more) (set_dirs ds w)))
  = handles (snd (get_info path w)) /\
  analyze_stl (prog :: path :: more) w = analyze_stl [prog; path] w /\
  analyze_stl [prog] w = analyze_stl [prog; default_filename] w /\
  analyze_stl [] w = analyze_stl [prog; default_filename] w /\
  (files w !! default_filename = None -> analyze_stl [prog] w = (Raise OSError, w)).
Proof.
  cbn [check_single_stl]. rewrite (blind_get_info path ds w). cbn [fst snd].
  repeat split. intros H. apply with_open_missing, H.
Qed.

Lemma X15_witness :
  analyze_stl ["analyze_stl.py"] (single_file "a.stl" stl_one)
  = (Raise OSError, single_file "a.stl" stl_one).
Proof.
  destruct (X15_arguments (single_file "a.stl" stl_one) "analyze_stl.py" "a.stl" [] ∅)
    as (_ & _ & _ & _ & _ & _ & H).
  apply H. reflexivity.
Defined.
